(** * Bulk invite (app.py): the invitation pipeline and its properties

    A shallow embedding of the pipeline of [app.py]: the per-row
    normalisation of the spreadsheet cells, the invitation client
    [post_invite] with its back-off loop, the classification of the
    response, and the sequential loop over the rows of the data frame.

    Modelling choices.
    - A Python [str] is a Rocq [string] whose characters are read as the
      code points below 256.  On that range [strip] and [lower] are exact
      ([str.isspace] holds of 9-13, 28-32, 133 and 160; [str.lower] moves
      A-Z and the Latin-1 capitals 192-222, 215 apart, up by 32).
    - Python integers are [Z].
    - The network is a function from the number of requests already sent
      and the request to the reply of [requests.post]: a response, or a
      [requests.RequestException] with its message.
    - Effects are threaded through a [Session]: the number of requests
      sent, the chronological log of observable effects (requests, sleeps,
      progress updates, error boxes) and the [results] list of the script.
    - Sleeps are logged in milliseconds: [time.sleep(s)] with [s] whole
      seconds is [Sleep (seconds s)], and [time.sleep(throttle_ms / 1000.0)]
      is [Sleep throttle_ms] (the float division is not modelled).
    - The [while True] loop of [post_invite] runs on fuel; [post_invite]
      is shown to return with the fuel it is given.
    - A frame is the list of its rows, each with the index label that
      [df.iterrows()] yields with it: an integer (a boolean label counts
      as 0 or 1) or a text.  [pd.read_csv] numbers the rows 0, 1, 2, ...
      unless the data lines have one more field than the header; the
      first field is then the label.  A float label and the tuple of a
      multi-level index are not modelled.
    - An exception that nothing catches ends the script: the loop is left
      by [Crash] with the session as it was when the exception was
      raised.
    - The calls of Streamlit ([st.error], [progress.progress]) are logged
      with what the script passes; what Streamlit does with it is not
      modelled. *)

From Stdlib Require Import ZArith NArith String Ascii List Bool Lia DecimalString.
Import ListNotations.
Local Open Scope Z_scope.
Local Open Scope string_scope.
Local Open Scope list_scope.

(** ** Python strings *)

Module PyStr.

(** [c.isspace()] for a code point below 256. *)
Definition is_space (c : ascii) : bool :=
  let n := nat_of_ascii c in
  ((9 <=? n) && (n <=? 13) || (28 <=? n) && (n <=? 32)
   || (n =? 133) || (n =? 160))%nat.

(** [c.lower()] for a code point below 256. *)
Definition lower_char (c : ascii) : ascii :=
  let n := nat_of_ascii c in
  if ((65 <=? n) && (n <=? 90)
      || (192 <=? n) && (n <=? 222) && negb (n =? 215))%nat
  then ascii_of_nat (n + 32) else c.

Fixpoint lower (s : string) : string :=
  match s with
  | EmptyString => EmptyString
  | String c t => String (lower_char c) (lower t)
  end.

Fixpoint lstrip (s : string) : string :=
  match s with
  | EmptyString => EmptyString
  | String c t => if is_space c then lstrip t else s
  end.

Fixpoint rstrip (s : string) : string :=
  match s with
  | EmptyString => EmptyString
  | String c t =>
      match rstrip t with
      | EmptyString => if is_space c then EmptyString else String c EmptyString
      | t' => String c t'
      end
  end.

(** [s.strip()] *)
Definition strip (s : string) : string := rstrip (lstrip s).


(** [needle in hay] *)
Fixpoint contains (needle hay : string) : bool :=
  if prefix needle hay then true
  else match hay with
       | EmptyString => false
       | String _ t => contains needle t
       end.

(** [s[:n]] *)
Definition take (n : nat) (s : string) : string := substring 0 n s.

(** [str(z)] for an [int]. *)
Definition of_int (z : Z) : string := NilZero.string_of_int (Z.to_int z).

(** [bool(s)] for a [str]. *)
Definition truthy (s : string) : bool := negb (String.eqb s "").

(** [s or d] for a [str] or [None]. *)
Definition or_else (o : option string) (d : string) : string :=
  match o with
  | Some s => if truthy s then s else d
  | None => d
  end.

(** [s or None] for a [str]. *)
Definition or_none (s : string) : option string :=
  if truthy s then Some s else None.

End PyStr.

(** ** The data frame *)

(** A cell of a row as [pandas.read_csv] delivers it.  The script only
    takes the truth value and the [str()] of a cell; a finite float is
    kept as these two (whether it is zero, and its printed text). *)
Inductive Cell : Type :=
| CStr (s : string)
| CNaN
| CInt (z : Z)
| CBool (b : bool)
| CFloat (is_zero : bool) (printed : string).

Definition cell_truthy (c : Cell) : bool :=
  match c with
  | CStr s => PyStr.truthy s
  | CNaN => true
  | CInt z => negb (z =? 0)%Z
  | CBool b => b
  | CFloat is_zero _ => negb is_zero
  end.

Definition cell_str (c : Cell) : string :=
  match c with
  | CStr s => s
  | CNaN => "nan"
  | CInt z => PyStr.of_int z
  | CBool true => "True"
  | CBool false => "False"
  | CFloat _ printed => printed
  end.

(** A row: the cells by column label. *)
Definition Row : Type := list (string * Cell).

(** [row.get(key, default)] *)
Fixpoint row_get (row : Row) (key : string) (default : Cell) : Cell :=
  match row with
  | [] => default
  | (k, v) :: rest => if String.eqb k key then v else row_get rest key default
  end.

(** ** Configuration: credentials, column mapping, options *)

Record Config : Type := {
  api_key : string;
  account_id : string;
  email_col : string;
  first_col : option string;
  last_col : option string;
  role_col : option string;
  dry_run : bool;
  throttle_ms : N          (* number_input(min_value=0, max_value=2000) *)
}.

(** ** Row normalisation (the first four lines of the loop body) *)

Record Fields : Type := {
  email : string;
  first : string;
  last : string;
  role : string
}.

(** [col and col != "(none)"] *)
Definition col_selected (col : option string) : bool :=
  match col with
  | Some c => PyStr.truthy c && negb (String.eqb c "(none)")
  | None => false
  end.

(** [str(row.get(col, "")).strip() if col and col != "(none)" else absent] *)
Definition read_optional (row : Row) (col : option string) (absent : string)
  : string :=
  match col with
  | Some c =>
      if col_selected col
      then PyStr.strip (cell_str (row_get row c (CStr "")))
      else absent
  | None => absent
  end.

(** [str(row.get(email_col, "") or "")]: the mapped email cell coerced to
    a string. *)
Definition email_text (row : Row) (col : string) : string :=
  let v := row_get row col (CStr "") in
  cell_str (if cell_truthy v then v else CStr "").

(** [str(row.get(email_col, "") or "").strip()] *)
Definition read_email (row : Row) (col : string) : string :=
  PyStr.strip (email_text row col).

Definition normalize (cfg : Config) (row : Row) : Fields :=
  {| email := read_email row (email_col cfg);
     first := read_optional row (first_col cfg) "";
     last := read_optional row (last_col cfg) "";
     role := read_optional row (role_col cfg) "employee" |}.

(** ** The network and the session *)

Record Response : Type := { status_code : Z; text : string }.

Inductive Reply : Type :=
| Replied (r : Response)
| Failed (msg : string).        (* requests.RequestException, str(e) = msg *)

(** The JSON body of the request; an omitted key is [None]. *)
Record Payload : Type := {
  p_email : string;
  p_role : string;
  p_firstName : option string;
  p_lastName : option string
}.

Record Request : Type := {
  url : string;
  headers : list (string * string);
  json : Payload;
  timeout : Z
}.

Definition Network : Type := nat -> Request -> Reply.

(** What the dry run records under "payload". *)
Record DryPayload : Type := {
  d_email : string;
  d_first : string;
  d_last : string;
  d_role : string
}.

(** The keys of a result beyond "row", "email" and "status". *)
Inductive Extra : Type :=
| NoExtra
| WithPayload (p : DryPayload)
| WithResponse (snippet : string)
| WithEcho (efirst elast erole : string) (response_snippet : string)
| WithError (error : string).

Record Outcome : Type := {
  o_row : Z;
  o_email : string;
  o_status : string;
  o_extra : Extra
}.

Inductive Event : Type :=
| Post (req : Request)
| Sleep (ms : Z)
| Progress (done : Z) (total : Z) (note : string)
| ErrorBox (msg : string).

Record Session : Type := {
  sent : nat;
  log : list Event;
  results : list Outcome
}.

Definition seconds (s : Z) : Z := 1000 * s.

(** The session once a request has been sent. *)
Definition posted (req : Request) (st : Session) : Session :=
  {| sent := S (sent st); log := log st ++ [Post req]; results := results st |}.

(** [requests.post(url, headers=headers, json=payload, timeout=30)] *)
Definition requests_post (net : Network) (req : Request) (st : Session)
  : Reply * Session :=
  (net (sent st) req, posted req st).

(** [time.sleep] *)
Definition time_sleep (ms : Z) (st : Session) : Session :=
  {| sent := sent st; log := log st ++ [Sleep ms]; results := results st |}.

(** [st.error] *)
Definition st_error (msg : string) (st : Session) : Session :=
  {| sent := sent st; log := log st ++ [ErrorBox msg]; results := results st |}.

(** [progress.progress] *)
Definition progress (done total : Z) (note : string) (st : Session) : Session :=
  {| sent := sent st; log := log st ++ [Progress done total note];
     results := results st |}.

(** [results.append] *)
Definition append (o : Outcome) (st : Session) : Session :=
  {| sent := sent st; log := log st; results := results st ++ [o] |}.

(** ** The invitation client *)

Definition BASE : string := "https://api.payhawk.com/api/v3".

Definition build_payload (email : string) (first last role : option string)
  : Payload :=
  {| p_email := email;
     p_role := PyStr.or_else role "employee";
     p_firstName := match first with
                    | Some f => PyStr.or_none f
                    | None => None
                    end;
     p_lastName := match last with
                   | Some l => PyStr.or_none l
                   | None => None
                   end |}.

Definition build_request (api_key account_id : string) (payload : Payload)
  : Request :=
  {| url := (BASE ++ "/accounts/" ++ account_id ++ "/users")%string;
     headers := [("X-Payhawk-ApiKey", api_key);
                 ("Accept", "application/json");
                 ("Content-Type", "application/json")];
     json := payload;
     timeout := 30 |}.

(** How a call ends: it returns a value or raises. *)
Inductive Ending (A : Type) : Type :=
| Returned (a : A)
| Raised (msg : string).
Arguments Returned {A} a.
Arguments Raised {A} msg.

(** The [while True] loop.  [None] is fuel run out, never a result of the
    code. *)
Fixpoint retry_loop (net : Network) (req : Request) (max_retries : Z)
  (fuel : nat) (retry : Z) (st : Session)
  : option (Ending Response * Session) :=
  match fuel with
  | O => None
  | S fuel' =>
      match requests_post net req st with
      | (Failed msg, st1) => Some (Raised msg, st1)
      | (Replied r, st1) =>
          if (status_code r =? 429)%Z && (retry <? max_retries)%Z then
            let retry' := retry + 1 in
            retry_loop net req max_retries fuel' retry'
              (time_sleep (seconds (Z.min (2 ^ retry') 10)) st1)
          else Some (Returned r, st1)
      end
  end.

(** Fuel for a call: one request and one more per allowed retry. *)
Definition fuel_for (max_retries : Z) : nat := S (Z.to_nat max_retries).

Definition post_invite (net : Network) (api_key account_id email : string)
  (first last role : option string) (max_retries : Z) (st : Session)
  : option (Ending (Response * Payload) * Session) :=
  let payload := build_payload email first last role in
  let req := build_request api_key account_id payload in
  match retry_loop net req max_retries (fuel_for max_retries) 0 st with
  | Some (Returned r, st') => Some (Returned (r, payload), st')
  | Some (Raised msg, st') => Some (Raised msg, st')
  | None => None
  end.

Definition default_role : option string := Some "employee".
Definition default_max_retries : Z := 5.

(** ** Classification of a response (the [if]/[elif] chain of the loop) *)

(** The branch taken: an ordinary status, or the 401 branch that ends the
    run. *)
Inductive Verdict : Type :=
| Tagged (status : string)
| Unauthorized (status : string).

Definition classify (resp : Response) : Verdict :=
  let code := status_code resp in
  if (code =? 200)%Z || (code =? 201)%Z then Tagged "INVITED"
  else if ((code =? 400)%Z || (code =? 409)%Z)
          && PyStr.contains "already" (PyStr.lower (text resp))
  then Tagged "ALREADY_EXISTS"
  else if (code =? 401)%Z then Unauthorized "INVITE_ERROR 401"
  else Tagged ("INVITE_ERROR " ++ PyStr.of_int code)%string.

Definition verdict_status (v : Verdict) : string :=
  match v with
  | Tagged s => s
  | Unauthorized s => s
  end.

(** ** The batch loop *)

(** How an iteration ends: the loop goes on, it is left by [break], or an
    exception that nothing catches ends the script. *)
Inductive Flow : Type := Continue | Break | Crash.

Definition unauthorized_msg : string :=
  "Unauthorized (401). Check API key/account ID and Payhawk API connection.".

(** [if throttle_ms: time.sleep(throttle_ms / 1000.0)] *)
Definition pace (cfg : Config) (st : Session) : Session :=
  if (throttle_ms cfg =? 0)%N then st
  else time_sleep (Z.of_N (throttle_ms cfg)) st.

(** [results[-1]['status']] *)
Definition last_status (st : Session) : string :=
  match rev (results st) with
  | o :: _ => o_status o
  | [] => ""
  end.

(** The tail of the loop body after the [try]: pacing, then the progress
    update. *)
Definition pace_and_report (cfg : Config) (idx total : Z) (st : Session)
  : Session :=
  let st1 := pace cfg st in
  progress (idx + 1) total (last_status st1) st1.

Definition skipped_outcome (idx : Z) : Outcome :=
  {| o_row := idx + 2; o_email := ""; o_status := "SKIPPED: missing email";
     o_extra := NoExtra |}.

Definition dry_outcome (idx : Z) (f : Fields) : Outcome :=
  {| o_row := idx + 2; o_email := email f; o_status := "DRY_RUN: would INVITE";
     o_extra := WithPayload {| d_email := email f; d_first := first f;
                               d_last := last f; d_role := role f |} |}.

Definition unauthorized_outcome (idx : Z) (f : Fields) (resp : Response)
  : Outcome :=
  {| o_row := idx + 2; o_email := email f; o_status := "INVITE_ERROR 401";
     o_extra := WithResponse (PyStr.take 300 (text resp)) |}.

Definition call_outcome (idx : Z) (f : Fields) (status : string)
  (resp : Response) : Outcome :=
  {| o_row := idx + 2; o_email := email f; o_status := status;
     o_extra := WithEcho (first f) (last f) (role f)
                  (PyStr.take 300 (text resp)) |}.

Definition network_error_outcome (idx : Z) (f : Fields) (msg : string)
  : Outcome :=
  {| o_row := idx + 2; o_email := email f; o_status := "NETWORK_ERROR";
     o_extra := WithError msg |}.

(** The call of the loop body:
    [post_invite(api_key, account_id, email, first or None, last or None,
                 role or "employee")]. *)
Definition invite_row (cfg : Config) (net : Network) (f : Fields)
  (st : Session) : option (Ending (Response * Payload) * Session) :=
  post_invite net (api_key cfg) (account_id cfg) (email f)
    (PyStr.or_none (first f)) (PyStr.or_none (last f))
    (Some (PyStr.or_else (Some (role f)) "employee"))
    default_max_retries st.

(** One iteration of [for idx, row in df.iterrows()] at an integer label
    [idx]. *)
Definition loop_body (cfg : Config) (net : Network) (total idx : Z)
  (row : Row) (st : Session) : option (Flow * Session) :=
  let f := normalize cfg row in
  if negb (PyStr.truthy (email f)) then
    Some (Continue,
          progress (idx + 1) total "skipped (no email)"
            (append (skipped_outcome idx) st))
  else if dry_run cfg then
    Some (Continue,
          progress (idx + 1) total "simulated" (append (dry_outcome idx f) st))
  else
    match invite_row cfg net f st with
    | None => None
    | Some (Returned (resp, _), st1) =>
        match classify resp with
        | Unauthorized _ =>
            Some (Break,
                  append (unauthorized_outcome idx f resp)
                    (st_error unauthorized_msg st1))
        | Tagged status =>
            Some (Continue,
                  pace_and_report cfg idx total
                    (append (call_outcome idx f status resp) st1))
        end
    | Some (Raised msg, st1) =>
        Some (Continue,
              pace_and_report cfg idx total
                (append (network_error_outcome idx f msg) st1))
    end.

(** The index label of a row, the [idx] of
    [for idx, row in df.iterrows()]. *)
Inductive Label : Type :=
| LInt (z : Z)
| LText (s : string).

(** One iteration at a text label.  [idx + 2] raises a [TypeError] where
    the result of the row is built, before anything is appended, and
    nothing catches it (the [except] is for [requests.RequestException]):
    at once for a row that is skipped or simulated, after the call for a
    real row, and after the error box when the call returned a 401. *)
Definition loop_body_text (cfg : Config) (net : Network) (row : Row)
  (st : Session) : option (Flow * Session) :=
  let f := normalize cfg row in
  if negb (PyStr.truthy (email f)) then Some (Crash, st)
  else if dry_run cfg then Some (Crash, st)
  else
    match invite_row cfg net f st with
    | None => None
    | Some (Returned (resp, _), st1) =>
        match classify resp with
        | Unauthorized _ => Some (Crash, st_error unauthorized_msg st1)
        | Tagged _ => Some (Crash, st1)
        end
    | Some (Raised _, st1) => Some (Crash, st1)
    end.

(** One iteration of the loop at the label of the row. *)
Definition loop_iteration (cfg : Config) (net : Network) (total : Z)
  (label : Label) (row : Row) (st : Session) : option (Flow * Session) :=
  match label with
  | LInt idx => loop_body cfg net total idx row st
  | LText _ => loop_body_text cfg net row st
  end.

(** The [for] loop over the rows that remain, each with its label. *)
Fixpoint run_loop (cfg : Config) (net : Network) (total : Z)
  (rows : list (Label * Row)) (st : Session) : option (Flow * Session) :=
  match rows with
  | [] => Some (Continue, st)
  | (label, row) :: rest =>
      match loop_iteration cfg net total label row st with
      | None => None
      | Some (Continue, st1) => run_loop cfg net total rest st1
      | Some (Break, st1) => Some (Break, st1)
      | Some (Crash, st1) => Some (Crash, st1)
      end
  end.

Definition start : Session := {| sent := 0; log := []; results := [] |}.

(** The run over a data frame: [results = []], [total = len(df)], the
    loop. *)
Definition run (cfg : Config) (net : Network) (df : list (Label * Row))
  : option (Flow * Session) :=
  run_loop cfg net (Z.of_nat (length df)) df start.

(** The rows labelled from [first] on, one by one. *)
Fixpoint labelled_from (first : Z) (rows : list Row) : list (Label * Row) :=
  match rows with
  | [] => []
  | row :: rest => (LInt first, row) :: labelled_from (first + 1) rest
  end.

(** The frame [pd.read_csv] makes of rows it numbers itself: the labels
    are 0, 1, 2, ... *)
Definition range_index (rows : list Row) : list (Label * Row) :=
  labelled_from 0 rows.


(** The requests of a log. *)
Definition posts (l : list Event) : list Request :=
  flat_map (fun e => match e with Post r => [r] | _ => [] end) l.

(** The sleeps of a log, in milliseconds. *)
Definition sleeps (l : list Event) : list Z :=
  flat_map (fun e => match e with Sleep ms => [ms] | _ => [] end) l.

(** The time slept over a log, in milliseconds. *)
Definition slept (l : list Event) : Z := fold_right Z.add 0 (sleeps l).

(** ** The specification's wording, for comparison with the code *)

Module Spec.

(** The status tags of the specification's classification table. *)
Definition status_tag (statusCode : Z) (bodyText : string) : string :=
  if (statusCode =? 200)%Z || (statusCode =? 201)%Z then "INVITED"
  else if ((statusCode =? 400)%Z || (statusCode =? 409)%Z)
          && PyStr.contains "already" (PyStr.lower bodyText)
  then "ALREADY_EXISTS"
  else if (statusCode =? 401)%Z then "AUTH_ERROR"
  else ("INVITE_ERROR:" ++ PyStr.of_int statusCode)%string.

(** The Normalizer's role of the specification: read and trimmed as
    first and last are, an empty or absent value giving "employee". *)
Definition role (cfg : Config) (row : Row) : string :=
  let v := read_optional row (role_col cfg) "" in
  if PyStr.truthy v then v else "employee".

End Spec.

(** The [results] list a run ends with. *)
Definition outcomes (r : option (Flow * Session)) : list Outcome :=
  match r with
  | Some (_, st) => results st
  | None => []
  end.

(** The request a call of [post_invite] sends. *)
Definition request_of (key acct mail : string) (fst lst rol : option string)
  : Request :=
  build_request key acct (build_payload mail fst lst rol).

(** ** Concrete inputs used by the examples below *)

Module Examples.

Definition cfg : Config :=
  {| api_key := "key"; account_id := "acct"; email_col := "email";
     first_col := Some "first"; last_col := Some "(none)";
     role_col := Some "role"; dry_run := false; throttle_ms := 100 |}.


(** No role column is mapped. *)
Definition cfg_norole : Config :=
  {| api_key := "key"; account_id := "acct"; email_col := "email";
     first_col := Some "first"; last_col := Some "(none)";
     role_col := Some "(none)"; dry_run := false; throttle_ms := 0 |}.

Definition row_of (e f r : string) : Row :=
  [("email", CStr e); ("first", CStr f); ("role", CStr r)].

Definition alice : Row := row_of "alice@example.com" "Alice" "employee".
Definition bob : Row := row_of " bob@example.com " "Bob" "admin".
Definition carol : Row := row_of "carol@example.com" "Carol" "  ".
Definition nobody : Row := row_of "   " "Nobody" "employee".

Definition ok : Response := {| status_code := 201; text := "" |}.
Definition busy : Response := {| status_code := 429; text := "slow down" |}.
Definition denied : Response := {| status_code := 401; text := "no" |}.
Definition broken : Response := {| status_code := 500; text := "" |}.

(** Every request is accepted. *)
Definition net_ok : Network := fun _ _ => Replied ok.

(** The third request is refused with 401. *)
Definition net_401_third : Network :=
  fun n _ => if (n =? 2)%nat then Replied denied else Replied ok.

(** Every request is refused with 401. *)
Definition net_401 : Network := fun _ _ => Replied denied.

(** Every request gets a 500. *)
Definition net_500 : Network := fun _ _ => Replied broken.

(** Five rate-limited replies, then acceptance. *)
Definition net_busy5 : Network :=
  fun n _ => if (n <? 5)%nat then Replied busy else Replied ok.

(** The endpoint is rate limiting for ever. *)
Definition net_busy : Network := fun _ _ => Replied busy.


End Examples.

(** ** Credentials ([get_creds]) *)

(** What [st.secrets[name]] gives: it raises (no secrets file, no such
    key; also a value [strip] cannot be called on, the call being in the
    same [try]), or it is a text (a false value other than a text behaves
    as the empty text under [or ""]). *)
Inductive SecretEntry : Type :=
| SecretRaises
| SecretText (s : string).

(** The environment once [load_dotenv()] has run: [os.getenv]. *)
Definition Environ : Type := string -> option string.

Record Creds : Type := {
  c_api_key : string;
  c_account_id : string;
  c_source : string
}.

Definition creds_from_env (env : Environ) : Creds :=
  {| c_api_key := PyStr.strip (PyStr.or_else (env "PAYHAWK_API_KEY") "");
     c_account_id := PyStr.strip (PyStr.or_else (env "PAYHAWK_ACCOUNT_ID") "");
     c_source := ".env" |}.

Definition get_creds (secrets : string -> SecretEntry) (env : Environ)
  : Creds :=
  match secrets "PAYHAWK_API_KEY" with
  | SecretRaises => creds_from_env env
  | SecretText k =>
      let api_key := PyStr.strip (PyStr.or_else (Some k) "") in
      match secrets "PAYHAWK_ACCOUNT_ID" with
      | SecretRaises => creds_from_env env
      | SecretText a =>
          let account_id := PyStr.strip (PyStr.or_else (Some a) "") in
          if PyStr.truthy api_key && PyStr.truthy account_id
          then {| c_api_key := api_key; c_account_id := account_id;
                  c_source := "secrets.toml" |}
          else creds_from_env env
      end
  end.

(** ** Column auto-detection ([cols_lower], the select boxes, [pick]) *)

(** A [dict] from texts to texts, in insertion order. *)
Definition Dict : Type := list (string * string).

(** [d[k] = v] *)
Fixpoint dict_set (d : Dict) (k v : string) : Dict :=
  match d with
  | [] => [(k, v)]
  | (k', v') :: rest =>
      if String.eqb k' k then (k', v) :: rest
      else (k', v') :: dict_set rest k v
  end.

(** [d[k]] when [k in d] *)
Fixpoint dict_get (d : Dict) (k : string) : option string :=
  match d with
  | [] => None
  | (k', v') :: rest => if String.eqb k' k then Some v' else dict_get rest k
  end.

(** [{c.lower(): c for c in df.columns}] *)
Definition cols_lower (columns : list string) : Dict :=
  fold_left (fun d c => dict_set d (PyStr.lower c) c) columns [].

(** [l.index(x)]; [None] is the [ValueError]. *)
Fixpoint list_index (x : string) (l : list string) : option nat :=
  match l with
  | [] => None
  | y :: rest =>
      if String.eqb y x then Some 0%nat
      else option_map S (list_index x rest)
  end.

(** [x in l] *)
Definition list_mem (x : string) (l : list string) : bool :=
  existsb (String.eqb x) l.

(** The choices of the optional select boxes and of [pick]. *)
Definition optional_choices (columns : list string) : list string :=
  "(none)" :: columns.

(** The [index=] of the email select box:
    [list(df.columns).index(cols_lower["email"]) if "email" in cols_lower
     else 0]. *)
Definition email_index (columns : list string) : option nat :=
  match dict_get (cols_lower columns) "email" with
  | Some c => list_index c columns
  | None => Some 0%nat
  end.

(** The [index=] of an optional select box:
    [(["(none)"] + list(df.columns)).index(cols_lower[label])
     if label in cols_lower else 0]. *)
Definition optional_index (columns : list string) (label : string)
  : option nat :=
  match dict_get (cols_lower columns) label with
  | Some c => list_index c (optional_choices columns)
  | None => Some 0%nat
  end.

(** The option a select box shows first: [options[index]]. *)
Definition preselected (options : list string) (index : option nat)
  : option string :=
  match index with
  | Some i => nth_error options i
  | None => None
  end.

(** The [default] of [pick]: the loop over the four labels. *)
Definition pick_default (columns : list string) (label : string)
  : option string :=
  fold_left
    (fun default k =>
       if String.eqb label k
       then match dict_get (cols_lower columns) k with
            | Some c => Some c
            | None => default
            end
       else default)
    ["email"; "first"; "last"; "role"] None.

(** The [idx] of [pick]. *)
Definition pick_index (columns : list string) (label : string) : option nat :=
  match pick_default columns label with
  | Some c =>
      if list_mem c columns then list_index c (optional_choices columns)
      else Some 0%nat
  | None => Some 0%nat
  end.

(** What [pick] returns for the selection [sel]. *)
Definition pick_result (sel : string) : option string :=
  if String.eqb sel "(none)" then None else Some sel.

(** ** The script from the top *)

Record DataFrame : Type := {
  columns : list string;
  rows : list (Label * Row)
}.

(** [df.empty] *)
Definition df_empty (df : DataFrame) : bool :=
  (length (columns df) =? 0)%nat || (length (rows df) =? 0)%nat.

(** What [pd.read_csv] does with the upload. *)
Inductive ReadResult : Type :=
| ReadFrame (df : DataFrame)
| ReadUnicodeError (msg : string)
| ReadFails (msg : string).

(** The uploaded file: what the plain read gives, and what the read with
    [encoding="utf-8-sig"] gives after [seek(0)]. *)
Record Upload : Type := {
  plain_read : ReadResult;
  sig_read : ReadResult
}.

(** The [try] around the two reads: the frame, or the [str(e)] of the
    exception shown. *)
Definition read_upload (u : Upload) : string + DataFrame :=
  match plain_read u with
  | ReadFrame df => inr df
  | ReadUnicodeError _ =>
      match sig_read u with
      | ReadFrame df => inr df
      | ReadUnicodeError msg => inl msg
      | ReadFails msg => inl msg
      end
  | ReadFails msg => inl msg
  end.

(** What the widgets return. *)
Record Widgets : Type := {
  w_email : string;
  w_first : string;
  w_last : string;
  w_role : string;
  w_dry_run : bool;
  w_throttle_ms : N;
  w_run : bool
}.

(** How the script ends: at one of its [st.stop()], or after the loop. *)
Inductive ScriptEnd : Type :=
| StopMissingCredentials
| StopNoUpload
| StopUnreadable (shown : string)
| StopEmptyCsv
| StopNotStarted
| StopNoEmailColumn
| Ran (cfg : Config) (ending : option (Flow * Session)).

Definition config_of (creds : Creds) (w : Widgets) : Config :=
  {| api_key := c_api_key creds; account_id := c_account_id creds;
     email_col := w_email w; first_col := Some (w_first w);
     last_col := Some (w_last w); role_col := Some (w_role w);
     dry_run := w_dry_run w; throttle_ms := w_throttle_ms w |}.

Definition script (secrets : string -> SecretEntry) (env : Environ)
  (uploaded : option Upload) (w : Widgets) (net : Network) : ScriptEnd :=
  let creds := get_creds secrets env in
  if negb (PyStr.truthy (c_api_key creds))
     || negb (PyStr.truthy (c_account_id creds))
  then StopMissingCredentials
  else
    match uploaded with
    | None => StopNoUpload
    | Some u =>
        match read_upload u with
        | inl msg => StopUnreadable ("Could not read CSV: " ++ msg)%string
        | inr df =>
            if df_empty df then StopEmptyCsv
            else if negb (w_run w) then StopNotStarted
            else if negb (PyStr.truthy (w_email w)) then StopNoEmailColumn
            else Ran (config_of creds w)
                   (run (config_of creds w) net (rows df))
        end
    end.

(** ** The log of one call *)

(** The log of a call that sends [S n] requests, the first when [retry]
    retries have been made: the requests, a back-off sleep between two of
    them. *)
Fixpoint call_log (req : Request) (retry : Z) (n : nat) : list Event :=
  match n with
  | O => [Post req]
  | S k =>
      Post req :: Sleep (seconds (Z.min (2 ^ (retry + 1)) 10))
      :: call_log req (retry + 1) k
  end.

(** The request the loop sends for a row of fields [f]. *)
Definition row_request (cfg : Config) (f : Fields) : Request :=
  request_of (api_key cfg) (account_id cfg) (email f)
    (PyStr.or_none (first f)) (PyStr.or_none (last f))
    (Some (PyStr.or_else (Some (role f)) "employee")).

(** The rows of a frame that have an email once normalised. *)
Definition rows_with_email (cfg : Config) (df : list (Label * Row))
  : list (Label * Row) :=
  filter (fun lr => PyStr.truthy (email (normalize cfg (snd lr)))) df.

(** ** More concrete inputs *)

Module Samples.

Definition full_secrets : string -> SecretEntry :=
  fun name => if String.eqb name "PAYHAWK_API_KEY"
              then SecretText " k1 " else SecretText "a1".

Definition env_unset : Environ := fun _ => None.

Definition headers_mixed : list string := ["Name"; "Email"; "EMAIL"; "Role"].

Definition blank_cell_row : Row := [("email", CNaN); ("first", CStr "Zed")].


Definition frame : DataFrame :=
  {| columns := ["email"; "first"; "role"];
     rows := range_index [Examples.alice; Examples.nobody; Examples.bob] |}.


(** A frame whose index holds texts. *)
Definition keyed : list (Label * Row) :=
  [(LText "r1", Examples.alice); (LText "r2", Examples.bob)].

(** Every request gets a 500 whose body has 400 characters. *)
Definition net_long : Network :=
  fun _ _ =>
    Replied {| status_code := 500;
               text := string_of_list_ascii (repeat "x"%char 400) |}.

Definition upload : Upload :=
  {| plain_read := ReadUnicodeError "bad byte"; sig_read := ReadFrame frame |}.

Definition widgets : Widgets :=
  {| w_email := "email"; w_first := "first"; w_last := "(none)";
     w_role := "role"; w_dry_run := false; w_throttle_ms := 50;
     w_run := true |}.

End Samples.

(** * Properties *)

(** ** Strings *)





Lemma truthy_false_iff (s : string) : PyStr.truthy s = false <-> s = "".
Proof.
  unfold PyStr.truthy. destruct s; cbn; split; congruence.
Qed.

Lemma or_else_truthy (o : option string) :
  PyStr.truthy (PyStr.or_else o "employee") = true.
Proof.
  destruct o as [s|]; cbn; [|reflexivity].
  destruct (PyStr.truthy s) eqn:E; [exact E | reflexivity].
Qed.

(** ** The log *)

Lemma posts_app (l1 l2 : list Event) : posts (l1 ++ l2) = posts l1 ++ posts l2.
Proof. apply flat_map_app. Qed.

Lemma sleeps_app (l1 l2 : list Event) :
  sleeps (l1 ++ l2) = sleeps l1 ++ sleeps l2.
Proof. apply flat_map_app. Qed.

Lemma slept_app (l1 l2 : list Event) : slept (l1 ++ l2) = slept l1 + slept l2.
Proof.
  unfold slept. rewrite sleeps_app.
  induction (sleeps l1) as [|z l IH]; cbn; [reflexivity | lia].
Qed.

(** ** The invitation client *)

Section Client.

Variable net : Network.
Variable req : Request.
Variable max_retries : Z.

(** The retries still allowed when [retry] have been made. *)
Let budget (retry : Z) : nat := Z.to_nat (max_retries - retry).

(** With more fuel than retries allowed the loop returns: it has sent
    at least one request and at most one more than the retries allowed,
    all of them [req]; it leaves [results] alone; and what it returns or
    raises is the reply to its last request. *)
Lemma retry_loop_returns :
  forall (fuel : nat) (retry : Z) (st : Session),
    (budget retry < fuel)%nat ->
    exists e st',
      retry_loop net req max_retries fuel retry st = Some (e, st')
      /\ results st' = results st
      /\ (sent st < sent st' <= sent st + S (budget retry))%nat
      /\ posts (log st') = posts (log st) ++ repeat req (sent st' - sent st)
      /\ net (pred (sent st')) req
         = match e with Returned r => Replied r | Raised msg => Failed msg end.
Proof.
  induction fuel as [|fuel IH]; intros retry st Hfuel; [lia|].
  cbn [retry_loop requests_post].
  destruct (net (sent st) req) as [r|msg] eqn:Hnet.
  - destruct ((status_code r =? 429)%Z && (retry <? max_retries)%Z) eqn:Hcond.
    + apply andb_true_iff in Hcond as [_ Hlt]. apply Z.ltb_lt in Hlt.
      assert (Hb : budget retry = S (budget (retry + 1))) by (unfold budget; lia).
      destruct (IH (retry + 1)
                  (time_sleep (seconds (Z.min (2 ^ (retry + 1)) 10))
                     (posted req st)))
        as (e & st' & Hrun & Hres & Hsent & Hposts & Hlast); [lia|].
      cbn [time_sleep posted sent log results] in *.
      exists e, st'. repeat split; try assumption; try lia.
      rewrite Hposts, !posts_app. cbn [posts flat_map app].
      rewrite app_nil_r, <- app_assoc.
      replace (sent st' - sent st)%nat with (S (sent st' - S (sent st)))
        by lia.
      reflexivity.
    + eexists _, _. split; [reflexivity|]. cbn [posted sent log results pred].
      repeat split; try lia.
      * rewrite posts_app. replace (S (sent st) - sent st)%nat with 1%nat by lia.
        reflexivity.
      * exact Hnet.
  - eexists _, _. split; [reflexivity|]. cbn [posted sent log results pred].
    repeat split; try lia.
    + rewrite posts_app. replace (S (sent st) - sent st)%nat with 1%nat by lia.
      reflexivity.
    + exact Hnet.
Qed.

(** More fuel does not change what the loop returns. *)
Lemma retry_loop_fuel_mono :
  forall (fuel fuel' : nat) (retry : Z) (st : Session) out,
    retry_loop net req max_retries fuel retry st = Some out ->
    (fuel <= fuel')%nat ->
    retry_loop net req max_retries fuel' retry st = Some out.
Proof.
  induction fuel as [|fuel IH]; intros fuel' retry st out Hrun Hle;
    [discriminate|].
  destruct fuel' as [|fuel']; [lia|].
  cbn [retry_loop] in *.
  destruct (requests_post net req st) as [[r|msg] st1]; [|exact Hrun].
  destruct ((status_code r =? 429)%Z && (retry <? max_retries)%Z);
    [|exact Hrun].
  apply (IH fuel'); [exact Hrun | lia].
Qed.

End Client.

(** [post_invite] returns or raises with the fuel it runs on. *)
Lemma post_invite_returns (net : Network) (key acct mail : string)
  (fst lst rol : option string) (max_retries : Z) (st : Session) :
  exists e st',
    post_invite net key acct mail fst lst rol max_retries st = Some (e, st')
    /\ results st' = results st
    /\ (sent st < sent st' <= sent st + S (Z.to_nat max_retries))%nat
    /\ posts (log st')
       = posts (log st)
         ++ repeat (build_request key acct (build_payload mail fst lst rol))
              (sent st' - sent st)
    /\ match e with
       | Returned (r, p) =>
           p = build_payload mail fst lst rol
           /\ net (pred (sent st'))
                (build_request key acct (build_payload mail fst lst rol))
              = Replied r
       | Raised msg =>
           net (pred (sent st'))
             (build_request key acct (build_payload mail fst lst rol))
           = Failed msg
       end.
Proof.
  unfold post_invite.
  destruct (retry_loop_returns net
              (build_request key acct (build_payload mail fst lst rol))
              max_retries (fuel_for max_retries) 0 st)
    as (e & st' & Hrun & Hres & Hsent & Hposts & Hlast).
  { unfold fuel_for. rewrite Z.sub_0_r. lia. }
  rewrite Hrun. rewrite Z.sub_0_r in Hsent.
  destruct e as [r|msg]; eexists _, st'; (split; [reflexivity|]);
    repeat split; try assumption; lia.
Qed.

(** ** The batch loop *)

Lemma pace_results (cfg : Config) (st : Session) :
  results (pace cfg st) = results st.
Proof. unfold pace. now destruct (throttle_ms cfg =? 0)%N. Qed.

Lemma pace_sent (cfg : Config) (st : Session) : sent (pace cfg st) = sent st.
Proof. unfold pace. now destruct (throttle_ms cfg =? 0)%N. Qed.

(** The log of [pace]: a sleep of [throttle_ms] milliseconds, none when it
    is zero. *)
Lemma pace_log (cfg : Config) (st : Session) :
  exists pacing,
    log (pace cfg st) = log st ++ pacing
    /\ posts pacing = []
    /\ slept pacing = Z.of_N (throttle_ms cfg)
    /\ (throttle_ms cfg <> 0%N -> pacing = [Sleep (Z.of_N (throttle_ms cfg))]).
Proof.
  unfold pace. destruct (throttle_ms cfg =? 0)%N eqn:E.
  - exists []. apply N.eqb_eq in E. rewrite E, app_nil_r.
    repeat split; congruence.
  - eexists [_]. repeat split. cbn. lia.
Qed.

Lemma last_status_append (o : Outcome) (st : Session) :
  last_status (append o st) = o_status o.
Proof. unfold last_status, append; cbn. now rewrite rev_unit. Qed.

(** Every iteration ends, and appends exactly one outcome, numbered by the
    line of the row in the file. *)
Lemma loop_body_appends (cfg : Config) (net : Network) (total idx : Z)
  (row : Row) (st : Session) :
  exists flow st' o,
    loop_body cfg net total idx row st = Some (flow, st')
    /\ results st' = results st ++ [o]
    /\ o_row o = idx + 2
    /\ (sent st <= sent st')%nat.
Proof.
  unfold loop_body.
  destruct (negb (PyStr.truthy (email (normalize cfg row)))).
  { eexists _, _, _. split; [reflexivity|]. cbn. repeat split. lia. }
  destruct (dry_run cfg).
  { eexists _, _, _. split; [reflexivity|]. cbn. repeat split. lia. }
  unfold invite_row.
  destruct (post_invite_returns net (api_key cfg) (account_id cfg)
              (email (normalize cfg row))
              (PyStr.or_none (first (normalize cfg row)))
              (PyStr.or_none (last (normalize cfg row)))
              (Some (PyStr.or_else (Some (role (normalize cfg row))) "employee"))
              default_max_retries st)
    as (e & st1 & Hrun & Hres & Hsent & _).
  rewrite Hrun. destruct e as [[resp p]|msg].
  - destruct (classify resp); eexists _, _, _; (split; [reflexivity|]);
      unfold pace_and_report; cbn; rewrite ?pace_results, ?pace_sent; cbn;
      rewrite Hres; repeat split; lia.
  - eexists _, _, _. split; [reflexivity|].
    unfold pace_and_report; cbn. rewrite pace_results, pace_sent; cbn.
    rewrite Hres. repeat split. lia.
Qed.

(** An iteration at a text label always ends by the uncaught exception,
    and appends nothing. *)
Lemma loop_body_text_crashes (cfg : Config) (net : Network) (row : Row)
  (st : Session) :
  exists st',
    loop_body_text cfg net row st = Some (Crash, st')
    /\ results st' = results st
    /\ (sent st <= sent st')%nat.
Proof.
  unfold loop_body_text.
  destruct (negb (PyStr.truthy (email (normalize cfg row)))).
  { exists st. repeat split. lia. }
  destruct (dry_run cfg).
  { exists st. repeat split. lia. }
  unfold invite_row.
  destruct (post_invite_returns net (api_key cfg) (account_id cfg)
              (email (normalize cfg row))
              (PyStr.or_none (first (normalize cfg row)))
              (PyStr.or_none (last (normalize cfg row)))
              (Some (PyStr.or_else (Some (role (normalize cfg row))) "employee"))
              default_max_retries st)
    as (e & st1 & Hrun & Hres & Hsent & _).
  rewrite Hrun. destruct e as [[resp p]|msg].
  - destruct (classify resp); eexists; (split; [reflexivity|]);
      cbn [st_error results sent]; (split; [exact Hres | lia]).
  - eexists. split; [reflexivity|]. split; [exact Hres | lia].
Qed.


(** The loop over [pre ++ rest] is the loop over [pre], then, unless it was
    left, the loop over [rest]. *)
Lemma run_loop_app (cfg : Config) (net : Network) (total : Z)
  (pre rest : list (Label * Row)) :
  forall st : Session,
    run_loop cfg net total (pre ++ rest) st
    = match run_loop cfg net total pre st with
      | Some (Continue, st1) => run_loop cfg net total rest st1
      | other => other
      end.
Proof.
  induction pre as [|[label row] pre IH]; intros st.
  - reflexivity.
  - cbn [app run_loop].
    destruct (loop_iteration cfg net total label row st) as [[[| |] st1]|];
      try reflexivity.
    apply IH.
Qed.

(** A loop that was not left has appended one outcome per row. *)
Lemma run_loop_continue_length (cfg : Config) (net : Network) (total : Z)
  (rows : list (Label * Row)) :
  forall st st' : Session,
    run_loop cfg net total rows st = Some (Continue, st') ->
    length (results st') = (length (results st) + length rows)%nat.
Proof.
  induction rows as [|[label row] rows IH]; intros st st' Hrun.
  - cbn in Hrun. injection Hrun as <-. cbn. lia.
  - cbn [run_loop] in Hrun. destruct label as [idx|s]; cbn [loop_iteration] in Hrun.
    + destruct (loop_body_appends cfg net total idx row st)
        as (flow & st1 & o & Hbody & Hres & _).
      rewrite Hbody in Hrun. destruct flow; try discriminate.
      rewrite (IH _ _ Hrun), Hres, length_app. cbn. lia.
    + destruct (loop_body_text_crashes cfg net row st) as (st1 & Hbody & _).
      rewrite Hbody in Hrun. discriminate.
Qed.

(** The loop always ends. *)
Lemma run_loop_ends (cfg : Config) (net : Network) (total : Z)
  (rows : list (Label * Row)) :
  forall st : Session,
    exists flow st', run_loop cfg net total rows st = Some (flow, st').
Proof.
  induction rows as [|[label row] rows IH]; intros st.
  - eexists _, _. reflexivity.
  - cbn [run_loop]. destruct label as [idx|s]; cbn [loop_iteration].
    + destruct (loop_body_appends cfg net total idx row st)
        as (flow & st1 & o & Hbody & _).
      rewrite Hbody. destruct flow; [apply IH | |]; eexists _, _; reflexivity.
    + destruct (loop_body_text_crashes cfg net row st) as (st1 & Hbody & _).
      rewrite Hbody. eexists _, _. reflexivity.
Qed.

(** ** One turn of the retry loop *)

Lemma retry_loop_again (net : Network) (req : Request) (max_retries : Z)
  (fuel : nat) (retry : Z) (st : Session) (r : Response) :
  net (sent st) req = Replied r ->
  status_code r = 429 ->
  retry < max_retries ->
  retry_loop net req max_retries (S fuel) retry st
  = retry_loop net req max_retries fuel (retry + 1)
      (time_sleep (seconds (Z.min (2 ^ (retry + 1)) 10)) (posted req st)).
Proof.
  intros Hnet Hcode Hlt. cbn [retry_loop requests_post].
  rewrite Hnet, Hcode. apply Z.ltb_lt in Hlt. rewrite Hlt. reflexivity.
Qed.

Lemma retry_loop_done (net : Network) (req : Request) (max_retries : Z)
  (fuel : nat) (retry : Z) (st : Session) (r : Response) :
  net (sent st) req = Replied r ->
  status_code r <> 429 \/ max_retries <= retry ->
  retry_loop net req max_retries (S fuel) retry st
  = Some (Returned r, posted req st).
Proof.
  intros Hnet Hstop. cbn [retry_loop requests_post]. rewrite Hnet.
  destruct ((status_code r =? 429)%Z && (retry <? max_retries)%Z) eqn:E;
    [|reflexivity].
  apply andb_true_iff in E as [E1 E2].
  apply Z.eqb_eq in E1. apply Z.ltb_lt in E2. lia.
Qed.

Lemma retry_loop_raises (net : Network) (req : Request) (max_retries : Z)
  (fuel : nat) (retry : Z) (st : Session) (msg : string) :
  net (sent st) req = Failed msg ->
  retry_loop net req max_retries (S fuel) retry st
  = Some (Raised msg, posted req st).
Proof.
  intros Hnet. cbn [retry_loop requests_post]. now rewrite Hnet.
Qed.

(** ** Claims about the invitation client *)

(** C3: with the default [max_retries = 5], when the endpoint answers the
    request five times with 429 and then with 201, [post_invite] sends
    exactly six requests, sleeps 2, 4, 8, 10 and 10 seconds between them
    ([min(2 ** retry, 10)] for [retry] = 1..5), and returns the 201, which
    is classified as INVITED.  And whatever [max_retries] is, a response
    other than 429 is returned at once: one request, no sleep. *)
Theorem C3_backoff_schedule (net : Network) (key acct mail : string)
  (fst lst rol : option string) :
  (forall (st : Session) (r6 : Response),
      (forall k : nat, (k < 5)%nat ->
         exists r, net (sent st + k)%nat (request_of key acct mail fst lst rol)
                   = Replied r
                   /\ status_code r = 429) ->
      net (sent st + 5)%nat (request_of key acct mail fst lst rol)
      = Replied r6 ->
      status_code r6 = 201 ->
      exists st',
        post_invite net key acct mail fst lst rol default_max_retries st
        = Some (Returned (r6, build_payload mail fst lst rol), st')
        /\ sent st' = (sent st + 6)%nat
        /\ log st'
           = log st
             ++ [Post (request_of key acct mail fst lst rol); Sleep (seconds 2);
                 Post (request_of key acct mail fst lst rol); Sleep (seconds 4);
                 Post (request_of key acct mail fst lst rol); Sleep (seconds 8);
                 Post (request_of key acct mail fst lst rol); Sleep (seconds 10);
                 Post (request_of key acct mail fst lst rol); Sleep (seconds 10);
                 Post (request_of key acct mail fst lst rol)]
        /\ results st' = results st
        /\ classify r6 = Tagged "INVITED")
  /\ (forall (max_retries : Z) (st : Session) (r : Response),
         net (sent st) (request_of key acct mail fst lst rol) = Replied r ->
         status_code r <> 429 ->
         post_invite net key acct mail fst lst rol max_retries st
         = Some (Returned (r, build_payload mail fst lst rol),
                 posted (request_of key acct mail fst lst rol) st)).
Proof.
  split.
  - intros st r6 H429 N6 C6.
    destruct (H429 0%nat) as (r1 & N1 & C1); [lia|].
    destruct (H429 1%nat) as (r2 & N2 & C2); [lia|].
    destruct (H429 2%nat) as (r3 & N3 & C3); [lia|].
    destruct (H429 3%nat) as (r4 & N4 & C4); [lia|].
    destruct (H429 4%nat) as (r5 & N5 & C5); [lia|].
    rewrite Nat.add_comm in N1, N2, N3, N4, N5, N6. cbn [Nat.add] in *.
    unfold post_invite, default_max_retries, fuel_for.
    fold (request_of key acct mail fst lst rol).
    change (Z.to_nat 5) with 5%nat.
    erewrite retry_loop_again; [| exact N1 | exact C1 | lia].
    erewrite retry_loop_again; [| exact N2 | exact C2 | lia].
    erewrite retry_loop_again; [| exact N3 | exact C3 | lia].
    erewrite retry_loop_again; [| exact N4 | exact C4 | lia].
    erewrite retry_loop_again; [| exact N5 | exact C5 | lia].
    erewrite retry_loop_done; [| exact N6 | left; lia].
    eexists. split; [reflexivity|].
    cbn [posted time_sleep sent log results].
    repeat split.
    + lia.
    + rewrite <- !app_assoc. reflexivity.
    + unfold classify. rewrite C6. reflexivity.
  - intros max_retries st r N C.
    unfold post_invite, fuel_for.
    fold (request_of key acct mail fst lst rol).
    erewrite retry_loop_done; [reflexivity | exact N | left; exact C].
Qed.

(** C3, at an endpoint that is busy for the first five requests. *)
Lemma C3_backoff_schedule_witness :
  exists st',
    post_invite Examples.net_busy5 "key" "acct" "alice@example.com"
      (Some "Alice") None default_role default_max_retries start
    = Some (Returned (Examples.ok,
                      build_payload "alice@example.com" (Some "Alice") None
                        default_role), st')
    /\ sent st' = 6%nat
    /\ sleeps (log st') = [2000; 4000; 8000; 10000; 10000]
    /\ classify Examples.ok = Tagged "INVITED".
Proof.
  destruct (proj1 (C3_backoff_schedule Examples.net_busy5 "key" "acct"
                     "alice@example.com" (Some "Alice") None default_role)
              start Examples.ok)
    as (st' & Hrun & Hsent & Hlog & _ & Hcls).
  - intros k Hk. exists Examples.busy. split; [|reflexivity].
    cbn [start sent Nat.add]. unfold Examples.net_busy5.
    apply Nat.ltb_lt in Hk. now rewrite Hk.
  - reflexivity.
  - reflexivity.
  - exists st'. rewrite Hlog. repeat split; assumption.
Defined.

(** C10: for every [max_retries >= 0] and every endpoint that answers each
    request with a response, [post_invite] returns: it has sent at least
    one and at most [max_retries + 1] requests, and it returns the last
    response received together with the payload it sent.  The fuel is not
    what stops it: any larger fuel gives the same result. *)
Theorem C10_post_invite_terminates (net : Network) (key acct mail : string)
  (fst lst rol : option string) (max_retries : Z) (st : Session) :
  0 <= max_retries ->
  (forall (n : nat) (req : Request), exists r, net n req = Replied r) ->
  exists r st',
    post_invite net key acct mail fst lst rol max_retries st
    = Some (Returned (r, build_payload mail fst lst rol), st')
    /\ 1 <= Z.of_nat (sent st' - sent st) <= max_retries + 1
    /\ posts (log st')
       = posts (log st)
         ++ repeat (request_of key acct mail fst lst rol) (sent st' - sent st)
    /\ net (pred (sent st')) (request_of key acct mail fst lst rol) = Replied r
    /\ forall fuel : nat,
         (fuel_for max_retries <= fuel)%nat ->
         retry_loop net (request_of key acct mail fst lst rol) max_retries
           fuel 0 st
         = Some (Returned r, st').
Proof.
  intros Hmax Hnet.
  destruct (retry_loop_returns net (request_of key acct mail fst lst rol)
              max_retries (fuel_for max_retries) 0 st)
    as (e & st' & Hrun & Hres & Hsent & Hposts & Hlast).
  { unfold fuel_for. rewrite Z.sub_0_r. lia. }
  rewrite Z.sub_0_r in Hsent.
  destruct e as [r|msg].
  - exists r, st'. unfold post_invite.
    fold (request_of key acct mail fst lst rol). rewrite Hrun.
    repeat split; try assumption; try lia.
    intros fuel Hfuel. now apply (retry_loop_fuel_mono _ _ _ _ _ _ _ _ Hrun).
  - destruct (Hnet (pred (sent st')) (request_of key acct mail fst lst rol))
      as (r & Hr).
    congruence.
Qed.

(** C10, at an endpoint that rate limits every request. *)
Lemma C10_post_invite_terminates_witness :
  exists r st',
    post_invite Examples.net_busy "key" "acct" "alice@example.com"
      None None default_role 5 start
    = Some (Returned (r, build_payload "alice@example.com" None None
                          default_role), st')
    /\ 1 <= Z.of_nat (sent st' - 0) <= 5 + 1.
Proof.
  destruct (C10_post_invite_terminates Examples.net_busy "key" "acct"
              "alice@example.com" None None default_role 5 start)
    as (r & st' & Hrun & Hcount & _).
  - lia.
  - intros n req. exists Examples.busy. reflexivity.
  - exists r, st'. split; [exact Hrun | exact Hcount].
Defined.

(** C9: the "role" of the payload [post_invite] builds is never the empty
    string: a role that is [None] or empty is sent as "employee".  The
    payload is the one of every request of the call and the one returned.
    This holds too when the loop passes on a row whose normalised role is
    empty. *)
Theorem C9_payload_role_never_empty (net : Network) (key acct mail : string)
  (fst lst rol : option string) (max_retries : Z) (st : Session) :
  p_role (build_payload mail fst lst rol) <> ""
  /\ p_role (build_payload mail fst lst None) = "employee"
  /\ p_role (build_payload mail fst lst (Some "")) = "employee"
  /\ (exists e st',
         post_invite net key acct mail fst lst rol max_retries st
         = Some (e, st')
         /\ posts (log st')
            = posts (log st)
              ++ repeat (request_of key acct mail fst lst rol)
                   (sent st' - sent st)
         /\ json (request_of key acct mail fst lst rol)
            = build_payload mail fst lst rol
         /\ match e with
            | Returned (_, p) => p = build_payload mail fst lst rol
            | Raised _ => True
            end)
  /\ (forall (cfg : Config) (m f l : string),
         exists e st',
           invite_row cfg net
             {| email := m; first := f; last := l; role := "" |} st
           = Some (e, st')
           /\ forall rq, In rq (posts (log st')) ->
                         In rq (posts (log st))
                         \/ p_role (json rq) = "employee").
Proof.
  split; [|split; [reflexivity|split; [reflexivity|split]]].
  - cbn [build_payload p_role]. intros H.
    pose proof (or_else_truthy rol) as T. rewrite H in T. discriminate.
  - destruct (post_invite_returns net key acct mail fst lst rol max_retries st)
      as (e & st' & Hrun & _ & _ & Hposts & Hlast).
    exists e, st'. repeat split; try assumption.
    destruct e as [[r p]|msg]; [apply Hlast | exact I].
  - intros cfg m f l. unfold invite_row. cbn [email first last role].
    destruct (post_invite_returns net (api_key cfg) (account_id cfg) m
                (PyStr.or_none f) (PyStr.or_none l)
                (Some (PyStr.or_else (Some "") "employee"))
                default_max_retries st)
      as (e & st' & Hrun & _ & _ & Hposts & _).
    exists e, st'. split; [exact Hrun|].
    intros rq Hin. rewrite Hposts in Hin.
    apply in_app_or in Hin as [Hin|Hin]; [now left | right].
    apply repeat_spec in Hin. subst rq. reflexivity.
Qed.

(** ** Claims about the classification *)

Lemma classify_table (resp : Response) :
  (status_code resp = 200 \/ status_code resp = 201 ->
   classify resp = Tagged "INVITED")
  /\ (status_code resp = 400 \/ status_code resp = 409 ->
      PyStr.contains "already" (PyStr.lower (text resp)) = true ->
      classify resp = Tagged "ALREADY_EXISTS")
  /\ (status_code resp = 401 ->
      classify resp = Unauthorized "INVITE_ERROR 401")
  /\ (status_code resp <> 200 -> status_code resp <> 201 ->
      status_code resp <> 401 ->
      ~ ((status_code resp = 400 \/ status_code resp = 409)
         /\ PyStr.contains "already" (PyStr.lower (text resp)) = true) ->
      classify resp
      = Tagged ("INVITE_ERROR " ++ PyStr.of_int (status_code resp))%string).
Proof.
  unfold classify. repeat split.
  - intros [H|H]; rewrite H; reflexivity.
  - intros [H|H] Hc; rewrite H, Hc; reflexivity.
  - intros H; rewrite H; reflexivity.
  - intros H200 H201 H401 Hconf.
    apply Z.eqb_neq in H200, H201, H401. rewrite H200, H201, H401. cbn [orb].
    destruct (((status_code resp =? 400)%Z || (status_code resp =? 409)%Z)
              && PyStr.contains "already" (PyStr.lower (text resp))) eqn:E;
      [|reflexivity].
    exfalso. apply Hconf. apply andb_true_iff in E as [E1 E2].
    apply orb_true_iff in E1 as [E1|E1]; apply Z.eqb_eq in E1; auto.
Qed.

Lemma invite_row_results (cfg : Config) (net : Network) (f : Fields)
  (st st1 : Session) (e : Ending (Response * Payload)) :
  invite_row cfg net f st = Some (e, st1) ->
  results st1 = results st /\ (sent st < sent st1)%nat.
Proof.
  unfold invite_row. intros Hcall.
  destruct (post_invite_returns net (api_key cfg) (account_id cfg) (email f)
              (PyStr.or_none (first f)) (PyStr.or_none (last f))
              (Some (PyStr.or_else (Some (role f)) "employee"))
              default_max_retries st)
    as (e' & st' & Hrun & Hres & Hsent & _).
  rewrite Hrun in Hcall. injection Hcall as <- <-. split; [exact Hres | lia].
Qed.

(** What the loop body does with a row that is neither skipped nor
    simulated, once [post_invite] has returned. *)
Lemma loop_body_call (cfg : Config) (net : Network) (total idx : Z)
  (row : Row) (st st1 : Session) (e : Ending (Response * Payload)) :
  PyStr.truthy (email (normalize cfg row)) = true ->
  dry_run cfg = false ->
  invite_row cfg net (normalize cfg row) st = Some (e, st1) ->
  loop_body cfg net total idx row st
  = match e with
    | Returned (resp, _) =>
        match classify resp with
        | Unauthorized _ =>
            Some (Break,
                  append (unauthorized_outcome idx (normalize cfg row) resp)
                    (st_error unauthorized_msg st1))
        | Tagged status =>
            Some (Continue,
                  pace_and_report cfg idx total
                    (append (call_outcome idx (normalize cfg row) status resp)
                       st1))
        end
    | Raised msg =>
        Some (Continue,
              pace_and_report cfg idx total
                (append (network_error_outcome idx (normalize cfg row) msg)
                   st1))
    end.
Proof.
  intros Hmail Hdry Hcall. unfold loop_body.
  rewrite Hmail, Hdry, Hcall. cbn [negb].
  destruct e as [[resp p]|msg]; reflexivity.
Qed.

(** C1, as stated, fails: after a real call answered with 401 the status
    recorded is "INVITE_ERROR 401", not "AUTH_ERROR"; and after a 500 it is
    "INVITE_ERROR 500", with a space, not "INVITE_ERROR:500". *)
Lemma C1_status_tags_differ :
  map o_status
    (outcomes (run Examples.cfg Examples.net_401 (range_index [Examples.alice])))
  = ["INVITE_ERROR 401"]
  /\ Spec.status_tag 401 "no" = "AUTH_ERROR"
  /\ map o_status
       (outcomes
          (run Examples.cfg Examples.net_401 (range_index [Examples.alice])))
     <> [Spec.status_tag (status_code Examples.denied) (text Examples.denied)]
  /\ map o_status
       (outcomes
          (run Examples.cfg Examples.net_500 (range_index [Examples.alice])))
     = ["INVITE_ERROR 500"]
  /\ Spec.status_tag 500 "" = "INVITE_ERROR:500"
  /\ map o_status
       (outcomes
          (run Examples.cfg Examples.net_500 (range_index [Examples.alice])))
     <> [Spec.status_tag (status_code Examples.broken) (text Examples.broken)].
Proof.
  repeat split; try (vm_compute; reflexivity); vm_compute; discriminate.
Qed.

(** C1, amended: for a row that is neither skipped nor simulated and whose
    call returned a response, the loop appends one outcome whose status is
    "INVITED" for 200 and 201; "ALREADY_EXISTS" for 400 and 409 when the
    lower-cased body contains "already"; "INVITE_ERROR 401" for 401, which
    also ends the loop; and "INVITE_ERROR " followed by the code in decimal
    for everything else (409 without "already" included), after which the
    loop goes on. *)
Theorem C1_classification (cfg : Config) (net : Network) (total idx : Z)
  (row : Row) (st st1 : Session) (resp : Response) (payload : Payload) :
  PyStr.truthy (email (normalize cfg row)) = true ->
  dry_run cfg = false ->
  invite_row cfg net (normalize cfg row) st
  = Some (Returned (resp, payload), st1) ->
  exists flow st2 o,
    loop_body cfg net total idx row st = Some (flow, st2)
    /\ results st2 = results st ++ [o]
    /\ (status_code resp = 200 \/ status_code resp = 201 ->
        o_status o = "INVITED" /\ flow = Continue)
    /\ (status_code resp = 400 \/ status_code resp = 409 ->
        PyStr.contains "already" (PyStr.lower (text resp)) = true ->
        o_status o = "ALREADY_EXISTS" /\ flow = Continue)
    /\ (status_code resp = 401 ->
        o_status o = "INVITE_ERROR 401" /\ flow = Break)
    /\ (status_code resp <> 200 -> status_code resp <> 201 ->
        status_code resp <> 401 ->
        ~ ((status_code resp = 400 \/ status_code resp = 409)
           /\ PyStr.contains "already" (PyStr.lower (text resp)) = true) ->
        o_status o = ("INVITE_ERROR " ++ PyStr.of_int (status_code resp))%string
        /\ flow = Continue).
Proof.
  intros Hmail Hdry Hcall.
  rewrite (loop_body_call cfg net total idx row st st1 _ Hmail Hdry Hcall).
  destruct (invite_row_results _ _ _ _ _ _ Hcall) as [Hres _].
  destruct (classify_table resp) as (T1 & T2 & T3 & T4).
  destruct (classify resp) as [status|status] eqn:Hcls.
  - eexists _, _, _. split; [reflexivity|]. split.
    { unfold pace_and_report. cbn [progress results].
      rewrite pace_results. cbn [append results]. now rewrite Hres. }
    cbn [call_outcome o_status]. clear Hcall Hres.
    intuition congruence.
  - eexists _, _, _. split; [reflexivity|]. split.
    { cbn [append st_error results]. now rewrite Hres. }
    cbn [unauthorized_outcome o_status]. clear Hcall Hres.
    intuition congruence.
Qed.

(** C1 amended, at a one-row file whose invitation is accepted with 201. *)
Lemma C1_classification_witness :
  exists flow st2 o,
    loop_body Examples.cfg Examples.net_ok 1 0 Examples.alice start
    = Some (flow, st2)
    /\ results st2 = [o]
    /\ o_status o = "INVITED"
    /\ flow = Continue.
Proof.
  edestruct (C1_classification Examples.cfg Examples.net_ok 1 0 Examples.alice
               start)
    as (flow & st2 & o & Hbody & Hres & H2xx & _).
  - reflexivity.
  - reflexivity.
  - reflexivity.
  - exists flow, st2, o. split; [exact Hbody|]. split; [exact Hres|].
    apply H2xx. right. reflexivity.
Defined.

(** ** Claims about the batch loop *)

(** C2 does not hold on a frame whose index holds texts.  When the real
    call for a row with a text label returns a 401, the script shows the
    error box and then raises the [TypeError] of [idx + 2] (line 189),
    which nothing catches: the run ends by the exception, whatever rows
    remain; the outcome of the row is not appended, so [results] is as it
    was before the row, and no list is handed on. *)
Theorem C2_text_label_401_raises (cfg : Config) (net : Network) (total : Z)
  (s : string) (row : Row) (rest : list (Label * Row)) (st st1 : Session)
  (resp : Response) (payload : Payload) :
  PyStr.truthy (email (normalize cfg row)) = true ->
  dry_run cfg = false ->
  invite_row cfg net (normalize cfg row) st
  = Some (Returned (resp, payload), st1) ->
  status_code resp = 401 ->
  exists final,
    run_loop cfg net total ((LText s, row) :: rest) st = Some (Crash, final)
    /\ results final = results st
    /\ log final = log st1 ++ [ErrorBox unauthorized_msg]
    /\ sent final = sent st1.
Proof.
  intros Hmail Hdry Hcall H401.
  destruct (invite_row_results _ _ _ _ _ _ Hcall) as [Hres _].
  destruct (classify_table resp) as (_ & _ & T3 & _). specialize (T3 H401).
  exists (st_error unauthorized_msg st1). split; [|split; [|split]].
  - cbn [run_loop loop_iteration]. unfold loop_body_text.
    rewrite Hmail, Hdry, Hcall, T3. reflexivity.
  - cbn [st_error results]. exact Hres.
  - reflexivity.
  - reflexivity.
Qed.

(** C2, at a file of two rows labelled "r1" and "r2" whose first request is
    refused with 401: the run ends by the exception after one request,
    with no result. *)
Lemma C2_text_label_401_raises_witness :
  exists final,
    run Examples.cfg Examples.net_401 Samples.keyed = Some (Crash, final)
    /\ results final = []
    /\ sent final = 1%nat.
Proof.
  edestruct (C2_text_label_401_raises Examples.cfg Examples.net_401 2 "r1"
               Examples.alice [(LText "r2", Examples.bob)] start)
    as (final & Hrun & Hres & _ & Hsent).
  - reflexivity.
  - reflexivity.
  - reflexivity.
  - reflexivity.
  - exists final. split; [exact Hrun|]. split; [exact Hres | exact Hsent].
Defined.





(** C8: after a row that is neither skipped nor simulated, when the loop
    goes on to a next iteration, what happens between the end of the call
    and that iteration is the pacing sleep of [throttle_ms] milliseconds
    (no sleep at all when it is zero) and then the progress update.  A
    skipped row and a simulated row only append their outcome and update
    the progress: they sleep not at all. *)
Theorem C8_pacing (cfg : Config) (net : Network) (total idx : Z)
  (row : Row) (rest : list (Label * Row)) (st : Session) :
  (PyStr.truthy (email (normalize cfg row)) = true ->
   dry_run cfg = false ->
   forall st' : Session,
     loop_body cfg net total idx row st = Some (Continue, st') ->
     exists e st1 o pacing,
       invite_row cfg net (normalize cfg row) st = Some (e, st1)
       /\ results st' = results st ++ [o]
       /\ log st'
          = log st1 ++ pacing ++ [Progress (idx + 1) total (o_status o)]
       /\ slept pacing = Z.of_N (throttle_ms cfg)
       /\ (throttle_ms cfg <> 0%N ->
           pacing = [Sleep (Z.of_N (throttle_ms cfg))])
       /\ run_loop cfg net total ((LInt idx, row) :: rest) st
          = run_loop cfg net total rest st')
  /\ (PyStr.truthy (email (normalize cfg row)) = false \/ dry_run cfg = true ->
      exists st' note,
        loop_body cfg net total idx row st = Some (Continue, st')
        /\ log st' = log st ++ [Progress (idx + 1) total note]
        /\ sleeps (log st') = sleeps (log st)
        /\ slept (log st') = slept (log st)).
Proof.
  split.
  - intros Hmail Hdry st' Hbody.
    destruct (post_invite_returns net (api_key cfg) (account_id cfg)
                (email (normalize cfg row))
                (PyStr.or_none (first (normalize cfg row)))
                (PyStr.or_none (last (normalize cfg row)))
                (Some (PyStr.or_else (Some (role (normalize cfg row)))
                         "employee"))
                default_max_retries st)
      as (e & st1 & Hcall & _).
    fold (invite_row cfg net (normalize cfg row) st) in Hcall.
    destruct (invite_row_results _ _ _ _ _ _ Hcall) as [Hres _].
    assert (Hnext : run_loop cfg net total ((LInt idx, row) :: rest) st
                    = run_loop cfg net total rest st')
      by (cbn [run_loop loop_iteration]; now rewrite Hbody).
    rewrite (loop_body_call _ _ total idx _ _ _ _ Hmail Hdry Hcall) in Hbody.
    assert (Hshape : exists o,
               st' = pace_and_report cfg idx total (append o st1)).
    { destruct e as [[resp p]|msg].
      - destruct (classify resp); [|discriminate].
        injection Hbody as <-. eexists. reflexivity.
      - injection Hbody as <-. eexists. reflexivity. }
    destruct Hshape as (o & ->).
    destruct (pace_log cfg (append o st1)) as (pacing & Hlog & _ & Hslept & Hone).
    clear Hbody.
    assert (Hst : pace_and_report cfg idx total (append o st1)
                  = progress (idx + 1) total (o_status o)
                      (pace cfg (append o st1))).
    { unfold pace_and_report, last_status. rewrite pace_results.
      fold (last_status (append o st1)). now rewrite last_status_append. }
    rewrite Hst in *.
    exists e, st1, o, pacing. split; [exact Hcall|].
    cbn [progress results log]. rewrite pace_results, Hlog.
    cbn [append results log].
    rewrite Hres, <- app_assoc. repeat split; assumption.
  - intros Hskip. unfold loop_body.
    destruct (PyStr.truthy (email (normalize cfg row))) eqn:Hmail; cbn [negb].
    + destruct Hskip as [Hskip|Hdry]; [discriminate|]. rewrite Hdry.
      eexists _, _. split; [reflexivity|]. cbn [progress append log].
      split; [reflexivity|].
      rewrite slept_app, sleeps_app. cbn. rewrite app_nil_r. split; [reflexivity | lia].
    + eexists _, _. split; [reflexivity|]. cbn [progress append log].
      split; [reflexivity|].
      rewrite slept_app, sleeps_app. cbn. rewrite app_nil_r. split; [reflexivity | lia].
Qed.

(** C8, at an accepted row paced by 100 ms and at a row with no email. *)
Lemma C8_pacing_witness :
  (exists st',
      loop_body Examples.cfg Examples.net_ok 2 0 Examples.alice start
      = Some (Continue, st')
      /\ sleeps (log st') = [100])
  /\ (exists st',
         loop_body Examples.cfg Examples.net_ok 2 1 Examples.nobody start
         = Some (Continue, st')
         /\ sleeps (log st') = []).
Proof.
  pose proof (C8_pacing Examples.cfg Examples.net_ok 2 0 Examples.alice []
                start) as [Hreal _].
  pose proof (C8_pacing Examples.cfg Examples.net_ok 2 1 Examples.nobody []
                start) as [_ Hskip].
  split.
  - edestruct Hreal as (e & st1 & o & pacing & _); try reflexivity.
    eexists. split; reflexivity.
  - destruct Hskip as (st' & note & Hbody & _ & Hsl & _); [left; reflexivity|].
    exists st'. split; [exact Hbody | exact Hsl].
Defined.

(** ** Claims about the normalisation and the dry run *)

(** C7, as stated, fails: a mapped role cell that holds only spaces is
    normalised to the empty string, not to "employee". *)
Lemma C7_blank_role_kept :
  role_col Examples.cfg = Some "role"
  /\ row_get Examples.carol "role" (CStr "") = CStr "  "
  /\ role (normalize Examples.cfg Examples.carol) = ""
  /\ Spec.role Examples.cfg Examples.carol = "employee"
  /\ role (normalize Examples.cfg Examples.carol)
     <> Spec.role Examples.cfg Examples.carol.
Proof.
  repeat split; try reflexivity. vm_compute. discriminate.
Qed.

(** C7, amended: the normalised role is "employee" when the role mapping
    is absent, empty or the "(none)" sentinel; when a column is mapped it
    is the trimmed text of the cell, read as first and last are, and it may
    be empty.  The empty role is replaced by "employee" where the request
    is made: the role sent is the normalised role, or "employee" when that
    is empty. *)
Theorem C7_role_normalisation (cfg : Config) (row : Row) :
  (role_col cfg = None \/ role_col cfg = Some ""
   \/ role_col cfg = Some "(none)" ->
   role (normalize cfg row) = "employee")
  /\ (forall c : string,
         role_col cfg = Some c -> c <> "" -> c <> "(none)" ->
         role (normalize cfg row)
         = PyStr.strip (cell_str (row_get row c (CStr "")))
         /\ role (normalize cfg row) = read_optional row (role_col cfg) "")
  /\ (forall (net : Network) (st : Session),
         exists e st',
           invite_row cfg net (normalize cfg row) st = Some (e, st')
           /\ forall rq, In rq (posts (log st')) ->
                In rq (posts (log st))
                \/ p_role (json rq)
                   = if PyStr.truthy (role (normalize cfg row))
                     then role (normalize cfg row) else "employee").
Proof.
  split; [|split].
  - cbn [normalize role]. intros [H|[H|H]]; rewrite H; reflexivity.
  - intros c Hc Hne Hnone. cbn [normalize role]. rewrite Hc.
    unfold read_optional, col_selected.
    destruct (PyStr.truthy c) eqn:Ht.
    + apply String.eqb_neq in Hnone. rewrite Hnone. split; reflexivity.
    + exfalso. apply Hne. now apply truthy_false_iff.
  - intros net st. unfold invite_row.
    destruct (post_invite_returns net (api_key cfg) (account_id cfg)
                (email (normalize cfg row))
                (PyStr.or_none (first (normalize cfg row)))
                (PyStr.or_none (last (normalize cfg row)))
                (Some (PyStr.or_else (Some (role (normalize cfg row)))
                         "employee"))
                default_max_retries st)
      as (e & st' & Hrun & _ & _ & Hposts & _).
    exists e, st'. split; [exact Hrun|].
    intros rq Hin. rewrite Hposts in Hin.
    apply in_app_or in Hin as [Hin|Hin]; [now left | right].
    apply repeat_spec in Hin. subst rq.
    cbn [build_request build_payload json p_role PyStr.or_else].
    destruct (PyStr.truthy (role (normalize cfg row))) eqn:Ht.
    + now rewrite Ht.
    + reflexivity.
Qed.

(** C7 amended, at a mapping without role column and at a mapped role
    cell. *)
Lemma C7_role_normalisation_witness :
  role (normalize Examples.cfg_norole Examples.bob) = "employee"
  /\ role (normalize Examples.cfg Examples.bob) = "admin".
Proof.
  split.
  - apply (proj1 (C7_role_normalisation Examples.cfg_norole Examples.bob)).
    right. right. reflexivity.
  - destruct (proj1 (proj2 (C7_role_normalisation Examples.cfg Examples.bob))
                "role" eq_refl) as [Hrole _].
    + discriminate.
    + discriminate.
    + rewrite Hrole. reflexivity.
Defined.






(** * Further properties of the script *)

(** ** Trimming *)

Lemma rstrip_cons_nonspace (c : ascii) (t : string) :
  PyStr.is_space c = false ->
  PyStr.rstrip (String c t) = String c (PyStr.rstrip t).
Proof.
  intros Hc. cbn [PyStr.rstrip]. rewrite Hc.
  now destruct (PyStr.rstrip t).
Qed.

Lemma rstrip_idempotent (s : string) :
  PyStr.rstrip (PyStr.rstrip s) = PyStr.rstrip s.
Proof.
  induction s as [|c t IH]; [reflexivity|].
  cbn [PyStr.rstrip]. destruct (PyStr.rstrip t) as [|c' t'] eqn:E.
  - destruct (PyStr.is_space c) eqn:Hc; [reflexivity|].
    cbn [PyStr.rstrip]. now rewrite Hc.
  - cbn [PyStr.rstrip] in *. fold PyStr.rstrip in *.
    change (PyStr.rstrip (String c (String c' t'))
            = String c (String c' t')).
    cbn [PyStr.rstrip]. cbn [PyStr.rstrip] in IH. now rewrite IH.
Qed.

(** What [lstrip] leaves is empty or starts with a character that is not
    whitespace. *)
Lemma lstrip_head (s : string) :
  PyStr.lstrip s = ""
  \/ exists c t, PyStr.lstrip s = String c t /\ PyStr.is_space c = false.
Proof.
  induction s as [|c t IH]; [now left|].
  cbn [PyStr.lstrip]. destruct (PyStr.is_space c) eqn:Hc; [exact IH|].
  right. now exists c, t.
Qed.

(** Trimming twice is trimming once. *)
Lemma strip_idempotent (s : string) :
  PyStr.strip (PyStr.strip s) = PyStr.strip s.
Proof.
  unfold PyStr.strip.
  destruct (lstrip_head s) as [E|(c & t & E & Hc)]; rewrite E.
  - reflexivity.
  - rewrite (rstrip_cons_nonspace c t Hc). cbn [PyStr.lstrip]. rewrite Hc.
    rewrite <- (rstrip_cons_nonspace c t Hc). apply rstrip_idempotent.
Qed.

(** A trimmed text neither starts nor ends with whitespace. *)
Lemma strip_no_edge_space (s : string) :
  PyStr.lstrip (PyStr.strip s) = PyStr.strip s
  /\ PyStr.rstrip (PyStr.strip s) = PyStr.strip s.
Proof.
  split.
  - unfold PyStr.strip.
    destruct (lstrip_head s) as [E|(c & t & E & Hc)]; rewrite E.
    + reflexivity.
    + rewrite (rstrip_cons_nonspace c t Hc). cbn [PyStr.lstrip].
      now rewrite Hc.
  - unfold PyStr.strip. apply rstrip_idempotent.
Qed.

(** ** The fields of a row *)

Lemma read_optional_trimmed (row : Row) (col : option string)
  (absent : string) :
  PyStr.strip absent = absent ->
  PyStr.strip (read_optional row col absent) = read_optional row col absent.
Proof.
  intros Habsent. unfold read_optional.
  destruct col as [c|]; [|exact Habsent].
  destruct (col_selected (Some c)); [apply strip_idempotent | exact Habsent].
Qed.

(** X1: the four fields computed for a row are trimmed: trimming any of
    them again changes nothing, so none starts or ends with whitespace,
    whatever the cells hold and whatever the mapping is. *)
Theorem normalize_fields_trimmed (cfg : Config) (row : Row) :
  PyStr.strip (email (normalize cfg row)) = email (normalize cfg row)
  /\ PyStr.strip (first (normalize cfg row)) = first (normalize cfg row)
  /\ PyStr.strip (last (normalize cfg row)) = last (normalize cfg row)
  /\ PyStr.strip (role (normalize cfg row)) = role (normalize cfg row)
  /\ PyStr.lstrip (email (normalize cfg row)) = email (normalize cfg row)
  /\ PyStr.rstrip (email (normalize cfg row)) = email (normalize cfg row).
Proof.
  cbn [normalize email first last role]. unfold read_email.
  repeat split.
  - apply strip_idempotent.
  - now apply read_optional_trimmed.
  - now apply read_optional_trimmed.
  - now apply read_optional_trimmed.
  - apply strip_no_edge_space.
  - apply strip_no_edge_space.
Qed.




(** ** The trace of one call *)

Lemma call_log_posts (req : Request) (n : nat) :
  forall retry : Z, posts (call_log req retry n) = repeat req (S n).
Proof.
  induction n as [|n IH]; intros retry; [reflexivity|].
  cbn [call_log]. change (posts (Post req :: ?l)) with (req :: posts l).
  cbn [posts flat_map app]. fold (posts (call_log req (retry + 1) n)).
  rewrite IH. reflexivity.
Qed.

(** The back-off sleeps of a call: one fewer than its requests, each of 2
    to 10 seconds. *)
Lemma call_log_sleeps (req : Request) (n : nat) :
  forall retry : Z,
    0 <= retry ->
    length (sleeps (call_log req retry n)) = n
    /\ Forall (fun ms => seconds 2 <= ms <= seconds 10)
         (sleeps (call_log req retry n)).
Proof.
  induction n as [|n IH]; intros retry Hretry.
  - split; [reflexivity | constructor].
  - cbn [call_log sleeps flat_map app].
    fold (sleeps (call_log req (retry + 1) n)).
    destruct (IH (retry + 1)) as [Hlen Hall]; [lia|].
    split; [cbn [length]; now rewrite Hlen|].
    constructor; [|exact Hall].
    assert (2 ^ 1 <= 2 ^ (retry + 1)) by (apply Z.pow_le_mono_r; lia).
    unfold seconds. change (2 ^ 1) with 2 in *. lia.
Qed.

Lemma slept_bounded (l : list Z) (lo hi : Z) :
  Forall (fun ms => lo <= ms <= hi) l ->
  lo * Z.of_nat (length l) <= fold_right Z.add 0 l <= hi * Z.of_nat (length l).
Proof.
  induction 1 as [|z l Hz _ IH]; [cbn; lia|].
  cbn [fold_right length]. lia.
Qed.

Section Trace.

Variable net : Network.
Variable req : Request.
Variable max_retries : Z.

(** The whole story of the loop of [post_invite]: with enough fuel it
    ends after [S n] requests, [n] of them retried because answered by
    429, [n] within the retries allowed; its log is that of the requests
    and the sleeps between them; it returns or raises the reply to the
    last request; and a 429 is returned only when the retries are used
    up. *)
Lemma retry_loop_trace :
  forall (fuel : nat) (retry : Z) (st : Session),
    (Z.to_nat (max_retries - retry) < fuel)%nat ->
    exists e st' n,
      retry_loop net req max_retries fuel retry st = Some (e, st')
      /\ results st' = results st
      /\ sent st' = (sent st + S n)%nat
      /\ (n <= Z.to_nat (max_retries - retry))%nat
      /\ log st' = log st ++ call_log req retry n
      /\ (forall k : nat, (k < n)%nat ->
            exists r, net (sent st + k)%nat req = Replied r
                      /\ status_code r = 429)
      /\ net (sent st + n)%nat req
         = match e with Returned r => Replied r | Raised msg => Failed msg end
      /\ match e with
         | Returned r =>
             status_code r <> 429 \/ n = Z.to_nat (max_retries - retry)
         | Raised _ => True
         end.
Proof.
  induction fuel as [|fuel IH]; intros retry st Hfuel; [lia|].
  cbn [retry_loop requests_post].
  destruct (net (sent st) req) as [r|msg] eqn:Hnet.
  - destruct ((status_code r =? 429)%Z && (retry <? max_retries)%Z) eqn:Hcond.
    + apply andb_true_iff in Hcond as [Hcode Hlt].
      apply Z.eqb_eq in Hcode. apply Z.ltb_lt in Hlt.
      assert (Hb : Z.to_nat (max_retries - retry)
                   = S (Z.to_nat (max_retries - (retry + 1)))) by lia.
      destruct (IH (retry + 1)
                  (time_sleep (seconds (Z.min (2 ^ (retry + 1)) 10))
                     (posted req st)))
        as (e & st' & n & Hrun & Hres & Hsent & Hn & Hlog & Hbusy & Hlast
            & Hwhy); [lia|].
      cbn [time_sleep posted sent log results] in *.
      exists e, st', (S n). split; [exact Hrun|]. split; [exact Hres|].
      split; [lia|]. split; [lia|]. split; [|split; [|split]].
      * rewrite Hlog, <- !app_assoc. reflexivity.
      * intros [|k] Hk.
        -- exists r. rewrite Nat.add_0_r. now split.
        -- destruct (Hbusy k) as (r' & Hr' & Hc'); [lia|].
           exists r'. split; [|exact Hc'].
           replace (sent st + S k)%nat with (S (sent st) + k)%nat by lia.
           exact Hr'.
      * replace (sent st + S n)%nat with (S (sent st) + n)%nat by lia.
        exact Hlast.
      * destruct e as [r'|msg]; [|exact I].
        destruct Hwhy as [Hwhy|Hwhy]; [now left | right; lia].
    + exists (Returned r), (posted req st), 0%nat.
      cbn [posted sent log results call_log].
      rewrite Nat.add_0_r. split; [reflexivity|]. split; [reflexivity|].
      split; [lia|]. split; [lia|]. split; [reflexivity|].
      split; [intros k Hk; lia|]. split; [exact Hnet|].
      apply andb_false_iff in Hcond as [Hcode|Hlt].
      * left. now apply Z.eqb_neq in Hcode.
      * right. apply Z.ltb_ge in Hlt. lia.
  - exists (Raised msg), (posted req st), 0%nat.
    cbn [posted sent log results call_log].
    rewrite Nat.add_0_r. repeat split; try lia; assumption.
Qed.

End Trace.

(** The same for [post_invite], which starts at [retry = 0]. *)
Lemma post_invite_trace (net : Network) (key acct mail : string)
  (fst lst rol : option string) (max_retries : Z) (st : Session) :
  exists e st' n,
    post_invite net key acct mail fst lst rol max_retries st = Some (e, st')
    /\ results st' = results st
    /\ sent st' = (sent st + S n)%nat
    /\ (n <= Z.to_nat max_retries)%nat
    /\ log st' = log st ++ call_log (request_of key acct mail fst lst rol) 0 n
    /\ (forall k : nat, (k < n)%nat ->
          exists r, net (sent st + k)%nat (request_of key acct mail fst lst rol)
                    = Replied r
                    /\ status_code r = 429)
    /\ match e with
       | Returned (r, p) =>
           p = build_payload mail fst lst rol
           /\ net (sent st + n)%nat (request_of key acct mail fst lst rol)
              = Replied r
           /\ (status_code r <> 429 \/ n = Z.to_nat max_retries)
       | Raised msg =>
           net (sent st + n)%nat (request_of key acct mail fst lst rol)
           = Failed msg
       end.
Proof.
  unfold post_invite. fold (request_of key acct mail fst lst rol).
  destruct (retry_loop_trace net (request_of key acct mail fst lst rol)
              max_retries (fuel_for max_retries) 0 st)
    as (e & st' & n & Hrun & Hres & Hsent & Hn & Hlog & Hbusy & Hlast & Hwhy).
  { unfold fuel_for. rewrite Z.sub_0_r. lia. }
  rewrite Z.sub_0_r in *. rewrite Hrun.
  destruct e as [r|msg]; eexists _, st', n; (split; [reflexivity|]);
    repeat split; try assumption.
Qed.

(** ** More about the invitation client *)

(** X3: [post_invite] retries after a 429 and after nothing else.  A call
    sends [n + 1] identical requests with [n] at most [max_retries] (none
    when that is negative); every request but the last was answered by a
    429; the call returns or raises the reply to the last one; and a 429
    is returned only when all the retries allowed were made. *)
Theorem post_invite_retries_only_after_429 (net : Network)
  (key acct mail : string) (fst lst rol : option string) (max_retries : Z)
  (st : Session) :
  exists e st' n,
    post_invite net key acct mail fst lst rol max_retries st = Some (e, st')
    /\ sent st' = (sent st + S n)%nat
    /\ Z.of_nat n <= Z.max 0 max_retries
    /\ posts (log st')
       = posts (log st) ++ repeat (request_of key acct mail fst lst rol) (S n)
    /\ (forall k : nat, (k < n)%nat ->
          exists r, net (sent st + k)%nat (request_of key acct mail fst lst rol)
                    = Replied r
                    /\ status_code r = 429)
    /\ match e with
       | Returned (r, p) =>
           net (sent st + n)%nat (request_of key acct mail fst lst rol)
           = Replied r
           /\ p = build_payload mail fst lst rol
           /\ (status_code r = 429 -> Z.of_nat n = Z.max 0 max_retries)
       | Raised msg =>
           net (sent st + n)%nat (request_of key acct mail fst lst rol)
           = Failed msg
       end.
Proof.
  destruct (post_invite_trace net key acct mail fst lst rol max_retries st)
    as (e & st' & n & Hrun & _ & Hsent & Hn & Hlog & Hbusy & Hlast).
  exists e, st', n. split; [exact Hrun|]. split; [exact Hsent|].
  split; [lia|]. split; [|split; [exact Hbusy|]].
  - now rewrite Hlog, posts_app, call_log_posts.
  - destruct e as [[r p]|msg]; [|exact Hlast].
    destruct Hlast as (Hp & Hr & Hwhy). repeat split; try assumption.
    intros H429. destruct Hwhy as [Hwhy|Hwhy]; [contradiction | lia].
Qed.

(** X4: between the [n + 1] requests of a call [post_invite] sleeps [n]
    times, each time 2 to 10 seconds, and nowhere else: the time a call
    spends backing off is at most 10 seconds per retry allowed. *)
Theorem post_invite_backoff_bounded (net : Network) (key acct mail : string)
  (fst lst rol : option string) (max_retries : Z) (st : Session) :
  exists e st' n naps,
    post_invite net key acct mail fst lst rol max_retries st = Some (e, st')
    /\ sent st' = (sent st + S n)%nat
    /\ sleeps (log st') = sleeps (log st) ++ naps
    /\ length naps = n
    /\ Forall (fun ms => seconds 2 <= ms <= seconds 10) naps
    /\ seconds 2 * Z.of_nat n <= slept (log st') - slept (log st)
       <= seconds 10 * Z.max 0 max_retries.
Proof.
  destruct (post_invite_trace net key acct mail fst lst rol max_retries st)
    as (e & st' & n & Hrun & _ & Hsent & Hn & Hlog & _).
  destruct (call_log_sleeps (request_of key acct mail fst lst rol) n 0)
    as [Hlen Hall]; [lia|].
  exists e, st', n, (sleeps (call_log (request_of key acct mail fst lst rol) 0 n)).
  split; [exact Hrun|]. split; [exact Hsent|].
  split; [now rewrite Hlog, sleeps_app|]. split; [exact Hlen|].
  split; [exact Hall|].
  rewrite Hlog, slept_app.
  pose proof (slept_bounded _ _ _ Hall) as Hsum. rewrite Hlen in Hsum.
  fold (slept (call_log (request_of key acct mail fst lst rol) 0 n)) in Hsum.
  unfold seconds in *. lia.
Qed.

(** X5: when the endpoint answers every request with 429, a call with
    [max_retries >= 0] sends exactly [max_retries + 1] requests and then
    returns the 429 it got last: running out of retries is not an error
    of the client. *)
Theorem post_invite_retries_exhausted (net : Network) (key acct mail : string)
  (fst lst rol : option string) (max_retries : Z) (st : Session) :
  0 <= max_retries ->
  (forall (n : nat) (req : Request),
      exists r, net n req = Replied r /\ status_code r = 429) ->
  exists r st',
    post_invite net key acct mail fst lst rol max_retries st
    = Some (Returned (r, build_payload mail fst lst rol), st')
    /\ status_code r = 429
    /\ Z.of_nat (sent st' - sent st) = max_retries + 1
    /\ length (sleeps (log st')) = (length (sleeps (log st))
                                    + Z.to_nat max_retries)%nat.
Proof.
  intros Hmax Hbusy.
  destruct (post_invite_trace net key acct mail fst lst rol max_retries st)
    as (e & st' & n & Hrun & _ & Hsent & Hn & Hlog & _ & Hlast).
  destruct (Hbusy (sent st + n)%nat (request_of key acct mail fst lst rol))
    as (r429 & Hr429 & Hcode).
  destruct e as [[r p]|msg]; [|congruence].
  destruct Hlast as (-> & Hr & Hwhy).
  assert (r = r429) by congruence. subst r429.
  destruct Hwhy as [Hwhy|Hwhy]; [contradiction|]. subst n.
  exists r, st'. split; [exact Hrun|]. split; [exact Hcode|].
  split; [lia|].
  rewrite Hlog, sleeps_app, length_app.
  now rewrite (proj1 (call_log_sleeps _ _ 0 (Z.le_refl 0))).
Qed.

(** X5, at an endpoint that is always busy, with three retries. *)
Lemma post_invite_retries_exhausted_witness :
  exists r st',
    post_invite Examples.net_busy "key" "acct" "alice@example.com"
      None None default_role 3 start
    = Some (Returned (r, build_payload "alice@example.com" None None
                          default_role), st')
    /\ status_code r = 429
    /\ sent st' = 4%nat.
Proof.
  destruct (post_invite_retries_exhausted Examples.net_busy "key" "acct"
              "alice@example.com" None None default_role 3 start)
    as (r & st' & Hrun & Hcode & Hsent & _).
  - lia.
  - intros n req. exists Examples.busy. split; reflexivity.
  - exists r, st'. split; [exact Hrun|]. split; [exact Hcode|].
    cbn [start sent] in Hsent. lia.
Defined.

(** X6: with [max_retries] zero or negative [post_invite] never retries:
    it sends one request and returns or raises its reply, a 429
    included, without sleeping. *)
Theorem post_invite_no_retry_allowed (net : Network) (key acct mail : string)
  (fst lst rol : option string) (max_retries : Z) (st : Session) :
  max_retries <= 0 ->
  post_invite net key acct mail fst lst rol max_retries st
  = Some (match net (sent st) (request_of key acct mail fst lst rol) with
          | Replied r => Returned (r, build_payload mail fst lst rol)
          | Failed msg => Raised msg
          end,
          posted (request_of key acct mail fst lst rol) st).
Proof.
  intros Hmax. unfold post_invite, fuel_for.
  fold (request_of key acct mail fst lst rol).
  destruct (net (sent st) (request_of key acct mail fst lst rol))
    as [r|msg] eqn:Hnet.
  - erewrite retry_loop_done; [reflexivity | exact Hnet | right; lia].
  - erewrite retry_loop_raises; [reflexivity | exact Hnet].
Qed.

(** X6, at an endpoint that is always busy and a call without retries. *)
Lemma post_invite_no_retry_allowed_witness :
  post_invite Examples.net_busy "key" "acct" "alice@example.com"
    None None default_role 0 start
  = Some (Returned (Examples.busy,
                    build_payload "alice@example.com" None None default_role),
          posted (request_of "key" "acct" "alice@example.com" None None
                    default_role) start).
Proof.
  apply (post_invite_no_retry_allowed Examples.net_busy "key" "acct"
           "alice@example.com" None None default_role 0 start).
  lia.
Defined.

(** ** One iteration of the loop, case by case *)

Lemma classify_unauthorized (resp : Response) (s : string) :
  classify resp = Unauthorized s ->
  status_code resp = 401 /\ s = "INVITE_ERROR 401".
Proof.
  unfold classify.
  destruct ((status_code resp =? 200)%Z || (status_code resp =? 201)%Z);
    [discriminate|].
  destruct (((status_code resp =? 400)%Z || (status_code resp =? 409)%Z)
            && PyStr.contains "already" (PyStr.lower (text resp)));
    [discriminate|].
  destruct (status_code resp =? 401)%Z eqn:E; [|discriminate].
  intros H. injection H as <-. now apply Z.eqb_eq in E.
Qed.

Lemma classify_tagged (resp : Response) (s : string) :
  classify resp = Tagged s ->
  status_code resp <> 401
  /\ (s = "INVITED" \/ s = "ALREADY_EXISTS"
      \/ s = ("INVITE_ERROR " ++ PyStr.of_int (status_code resp))%string).
Proof.
  unfold classify.
  destruct ((status_code resp =? 200)%Z || (status_code resp =? 201)%Z)
    eqn:E2xx.
  { intros H. injection H as <-. split; [lia | now left]. }
  destruct (((status_code resp =? 400)%Z || (status_code resp =? 409)%Z)
            && PyStr.contains "already" (PyStr.lower (text resp))) eqn:E4xx.
  { intros H. injection H as <-. split; [lia | right; now left]. }
  destruct (status_code resp =? 401)%Z eqn:E; [discriminate|].
  intros H. injection H as <-. apply Z.eqb_neq in E.
  split; [exact E | right; now right].
Qed.

Lemma invite_row_trace (cfg : Config) (net : Network) (f : Fields)
  (st : Session) :
  exists e st1 n,
    invite_row cfg net f st = Some (e, st1)
    /\ results st1 = results st
    /\ sent st1 = (sent st + S n)%nat
    /\ (n <= 5)%nat
    /\ log st1 = log st ++ call_log (row_request cfg f) 0 n
    /\ (forall k : nat, (k < n)%nat ->
          exists r, net (sent st + k)%nat (row_request cfg f) = Replied r
                    /\ status_code r = 429)
    /\ match e with
       | Returned (r, p) =>
           p = json (row_request cfg f)
           /\ net (sent st + n)%nat (row_request cfg f) = Replied r
           /\ (status_code r <> 429 \/ n = 5%nat)
       | Raised msg => net (sent st + n)%nat (row_request cfg f) = Failed msg
       end.
Proof.
  unfold invite_row, row_request.
  destruct (post_invite_trace net (api_key cfg) (account_id cfg) (email f)
              (PyStr.or_none (first f)) (PyStr.or_none (last f))
              (Some (PyStr.or_else (Some (role f)) "employee"))
              default_max_retries st)
    as (e & st1 & n & Hrun & Hres & Hsent & Hn & Hlog & Hbusy & Hlast).
  exists e, st1, n. repeat split; try assumption.
Qed.

(** The three ways through the loop body, and the three ways a real call
    can end. *)
Lemma loop_body_cases (cfg : Config) (net : Network) (total idx : Z)
  (row : Row) (st : Session) :
  (PyStr.truthy (email (normalize cfg row)) = false
   /\ loop_body cfg net total idx row st
      = Some (Continue,
              progress (idx + 1) total "skipped (no email)"
                (append (skipped_outcome idx) st)))
  \/ (PyStr.truthy (email (normalize cfg row)) = true
      /\ dry_run cfg = true
      /\ loop_body cfg net total idx row st
         = Some (Continue,
                 progress (idx + 1) total "simulated"
                   (append (dry_outcome idx (normalize cfg row)) st)))
  \/ (PyStr.truthy (email (normalize cfg row)) = true
      /\ dry_run cfg = false
      /\ exists e st1 n,
           invite_row cfg net (normalize cfg row) st = Some (e, st1)
           /\ results st1 = results st
           /\ sent st1 = (sent st + S n)%nat
           /\ (n <= 5)%nat
           /\ log st1 = log st ++ call_log (row_request cfg (normalize cfg row)) 0 n
           /\ match e with
              | Returned (resp, _) =>
                  net (sent st + n)%nat (row_request cfg (normalize cfg row))
                  = Replied resp
                  /\ match classify resp with
                     | Tagged status =>
                         loop_body cfg net total idx row st
                         = Some (Continue,
                                 pace_and_report cfg idx total
                                   (append (call_outcome idx (normalize cfg row)
                                              status resp) st1))
                     | Unauthorized _ =>
                         status_code resp = 401
                         /\ loop_body cfg net total idx row st
                            = Some (Break,
                                    append (unauthorized_outcome idx
                                              (normalize cfg row) resp)
                                      (st_error unauthorized_msg st1))
                     end
              | Raised msg =>
                  loop_body cfg net total idx row st
                  = Some (Continue,
                          pace_and_report cfg idx total
                            (append (network_error_outcome idx
                                       (normalize cfg row) msg) st1))
              end).
Proof.
  destruct (PyStr.truthy (email (normalize cfg row))) eqn:Hmail.
  2:{ left. split; [reflexivity|]. unfold loop_body. now rewrite Hmail. }
  right. destruct (dry_run cfg) eqn:Hdry.
  { left. repeat split. unfold loop_body. now rewrite Hmail, Hdry. }
  right. split; [reflexivity|]. split; [reflexivity|].
  destruct (invite_row_trace cfg net (normalize cfg row) st)
    as (e & st1 & n & Hcall & Hres & Hsent & Hn & Hlog & _ & Hlast).
  exists e, st1, n. repeat (split; [assumption|]).
  rewrite (loop_body_call cfg net total idx row st st1 e Hmail Hdry Hcall).
  destruct e as [[resp p]|msg]; [|reflexivity].
  destruct Hlast as (_ & Hreply & _). split; [exact Hreply|].
  destruct (classify resp) as [status|s] eqn:Hcls; [reflexivity|].
  split; [|reflexivity]. now apply (classify_unauthorized resp s).
Qed.

(** An invariant of the sessions that every iteration keeps holds at the
    end of the loop. *)
Lemma run_loop_invariant (cfg : Config) (net : Network) (total : Z)
  (P : Session -> Prop) :
  (forall label row st flow st',
      P st -> loop_iteration cfg net total label row st = Some (flow, st') ->
      P st') ->
  forall (rows : list (Label * Row)) (st : Session) flow st',
    P st -> run_loop cfg net total rows st = Some (flow, st') -> P st'.
Proof.
  intros Hstep rows.
  induction rows as [|[label row] rows IH]; intros st flow st' HP Hrun.
  - cbn in Hrun. now injection Hrun as <- <-.
  - cbn [run_loop] in Hrun.
    destruct (loop_iteration cfg net total label row st)
      as [[[| |] st1]|] eqn:Hbody; [| | |discriminate].
    + apply (IH st1 flow st'); [|exact Hrun].
      exact (Hstep label row st Continue st1 HP Hbody).
    + injection Hrun as <- <-. exact (Hstep label row st Break st1 HP Hbody).
    + injection Hrun as <- <-. exact (Hstep label row st Crash st1 HP Hbody).
Qed.

Lemma pace_and_report_facts (cfg : Config) (idx total : Z) (st : Session) :
  results (pace_and_report cfg idx total st) = results st
  /\ sent (pace_and_report cfg idx total st) = sent st
  /\ exists evs,
       log (pace_and_report cfg idx total st) = log st ++ evs
       /\ posts evs = []
       /\ sleeps evs = (if (throttle_ms cfg =? 0)%N then []
                        else [Z.of_N (throttle_ms cfg)]).
Proof.
  unfold pace_and_report, pace.
  destruct (throttle_ms cfg =? 0)%N; cbn [progress time_sleep results sent log].
  - repeat split. eexists. split; [reflexivity|]. split; reflexivity.
  - repeat split. eexists. rewrite <- app_assoc. split; [reflexivity|].
    split; reflexivity.
Qed.

(** Everything one iteration does: the outcome it appends, what it logs,
    what it sends, by case. *)
Lemma loop_body_summary (cfg : Config) (net : Network) (total idx : Z)
  (row : Row) (st : Session) :
  exists flow st' o evs,
    loop_body cfg net total idx row st = Some (flow, st')
    /\ results st' = results st ++ [o]
    /\ log st' = log st ++ evs
    /\ sent st' = (sent st + length (posts evs))%nat
    /\ o_row o = idx + 2
    /\ o_email o = email (normalize cfg row)
    /\ ((PyStr.truthy (email (normalize cfg row)) = false
         /\ flow = Continue /\ o = skipped_outcome idx
         /\ posts evs = [] /\ sleeps evs = [])
        \/ (PyStr.truthy (email (normalize cfg row)) = true
            /\ dry_run cfg = true
            /\ flow = Continue /\ o = dry_outcome idx (normalize cfg row)
            /\ posts evs = [] /\ sleeps evs = [])
        \/ (PyStr.truthy (email (normalize cfg row)) = true
            /\ dry_run cfg = false
            /\ exists n : nat,
                 (n <= 5)%nat
                 /\ posts evs
                    = repeat (row_request cfg (normalize cfg row)) (S n)
                 /\ ((flow = Continue
                      /\ sleeps evs
                         = sleeps (call_log (row_request cfg (normalize cfg row))
                                     0 n)
                           ++ (if (throttle_ms cfg =? 0)%N then []
                               else [Z.of_N (throttle_ms cfg)])
                      /\ ((exists resp status,
                              o = call_outcome idx (normalize cfg row) status
                                    resp
                              /\ classify resp = Tagged status
                              /\ net (sent st + n)%nat
                                   (row_request cfg (normalize cfg row))
                                 = Replied resp)
                          \/ (exists msg,
                                 o = network_error_outcome idx
                                       (normalize cfg row) msg
                                 /\ net (sent st + n)%nat
                                      (row_request cfg (normalize cfg row))
                                    = Failed msg)))
                     \/ (flow = Break
                         /\ sleeps evs
                            = sleeps (call_log
                                        (row_request cfg (normalize cfg row))
                                        0 n)
                         /\ exists resp,
                              o = unauthorized_outcome idx (normalize cfg row)
                                    resp
                              /\ status_code resp = 401
                              /\ net (sent st + n)%nat
                                   (row_request cfg (normalize cfg row))
                                 = Replied resp)))).
Proof.
  destruct (loop_body_cases cfg net total idx row st)
    as [(Hmail & Hbody)|[(Hmail & Hdry & Hbody)|(Hmail & Hdry & Hreal)]].
  - eexists Continue, _, (skipped_outcome idx), [_].
    split; [exact Hbody|]. cbn [progress append results log sent].
    split; [reflexivity|]. split; [reflexivity|].
    split; [cbn; lia|]. split; [reflexivity|].
    split; [cbn; symmetry; now apply truthy_false_iff|].
    left. repeat split. exact Hmail.
  - eexists Continue, _, (dry_outcome idx (normalize cfg row)), [_].
    split; [exact Hbody|]. cbn [progress append results log sent].
    split; [reflexivity|]. split; [reflexivity|].
    split; [cbn; lia|]. split; [reflexivity|]. split; [reflexivity|].
    right. left. repeat split; assumption.
  - destruct Hreal as (e & st1 & n & Hcall & Hres & Hsent & Hn & Hlog & Hend).
    assert (Hcont :
      forall o,
        o_row o = idx + 2 -> o_email o = email (normalize cfg row) ->
        exists evs,
          results (pace_and_report cfg idx total (append o st1))
          = results st ++ [o]
          /\ log (pace_and_report cfg idx total (append o st1)) = log st ++ evs
          /\ sent (pace_and_report cfg idx total (append o st1))
             = (sent st + length (posts evs))%nat
          /\ posts evs = repeat (row_request cfg (normalize cfg row)) (S n)
          /\ sleeps evs
             = sleeps (call_log (row_request cfg (normalize cfg row)) 0 n)
               ++ (if (throttle_ms cfg =? 0)%N then []
                   else [Z.of_N (throttle_ms cfg)])).
    { intros o _ _.
      destruct (pace_and_report_facts cfg idx total (append o st1))
        as (Hr & Hs & evs & Hl & Hp & Hsl).
      exists (call_log (row_request cfg (normalize cfg row)) 0 n ++ evs).
      rewrite Hr, Hs, Hl. cbn [append results log sent].
      rewrite Hres, Hlog, <- app_assoc, posts_app, sleeps_app, Hp, Hsl,
        app_nil_r, call_log_posts, repeat_length.
      repeat split. exact Hsent. }
    destruct e as [[resp p]|msg].
    + destruct Hend as (Hreply & Hend).
      destruct (classify resp) as [status|s] eqn:Hcls.
      * destruct (Hcont (call_outcome idx (normalize cfg row) status resp)
                    eq_refl eq_refl)
          as (evs & Hr & Hl & Hs & Hp & Hsl).
        eexists Continue, _,
          (call_outcome idx (normalize cfg row) status resp), evs.
        split; [exact Hend|].
        repeat (split; [assumption || reflexivity|]).
        right. right. repeat (split; [assumption || reflexivity|]).
        exists n. repeat (split; [assumption|]).
        left. repeat (split; [assumption || reflexivity|]).
        left. exists resp, status. repeat split; assumption.
      * destruct Hend as (H401 & Hend).
        eexists Break, _, (unauthorized_outcome idx (normalize cfg row) resp),
          (call_log (row_request cfg (normalize cfg row)) 0 n
           ++ [ErrorBox unauthorized_msg]).
        split; [exact Hend|]. cbn [append st_error results log sent].
        rewrite Hres, Hlog, <- app_assoc, posts_app, call_log_posts,
          length_app, repeat_length.
        split; [reflexivity|]. split; [reflexivity|].
        split; [cbn; lia|]. split; [reflexivity|]. split; [reflexivity|].
        right. right. repeat (split; [assumption || reflexivity|]).
        exists n. split; [exact Hn|].
        split; [cbn; now rewrite app_nil_r|].
        right. split; [reflexivity|].
        split; [rewrite sleeps_app; cbn; now rewrite app_nil_r|].
        exists resp. repeat split; assumption.
    + destruct (Hcont (network_error_outcome idx (normalize cfg row) msg)
                  eq_refl eq_refl)
        as (evs & Hr & Hl & Hs & Hp & Hsl).
      eexists Continue, _,
        (network_error_outcome idx (normalize cfg row) msg), evs.
      split; [exact Hend|].
      repeat (split; [assumption || reflexivity|]).
      right. right. repeat (split; [assumption || reflexivity|]).
      exists n. repeat (split; [assumption|]).
      left. repeat (split; [assumption || reflexivity|]).
      right. exists msg. split; [reflexivity|].
      destruct (invite_row_trace cfg net (normalize cfg row) st)
        as (e' & st1' & n' & Hcall' & _ & Hsent' & _ & _ & _ & Hlast').
      rewrite Hcall in Hcall'. injection Hcall' as <- <-.
      assert (n' = n) by lia. subst n'. exact Hlast'.
Qed.

(** Everything one iteration at a text label does before the exception:
    nothing for a row that is skipped or simulated, the call for a real
    row. *)
Lemma loop_body_text_summary (cfg : Config) (net : Network) (row : Row)
  (st : Session) :
  exists st' evs,
    loop_body_text cfg net row st = Some (Crash, st')
    /\ results st' = results st
    /\ log st' = log st ++ evs
    /\ sent st' = (sent st + length (posts evs))%nat
    /\ ((PyStr.truthy (email (normalize cfg row)) = false /\ evs = [])
        \/ (PyStr.truthy (email (normalize cfg row)) = true
            /\ dry_run cfg = true /\ evs = [])
        \/ (PyStr.truthy (email (normalize cfg row)) = true
            /\ dry_run cfg = false
            /\ exists n : nat,
                 (n <= 5)%nat
                 /\ posts evs
                    = repeat (row_request cfg (normalize cfg row)) (S n)
                 /\ sleeps evs
                    = sleeps (call_log (row_request cfg (normalize cfg row))
                                0 n))).
Proof.
  unfold loop_body_text.
  destruct (PyStr.truthy (email (normalize cfg row))) eqn:Hmail; cbn [negb].
  2:{ exists st, []. rewrite app_nil_r. cbn. repeat split; try lia.
      now left. }
  destruct (dry_run cfg) eqn:Hdry.
  { exists st, []. rewrite app_nil_r. cbn. repeat split; try lia.
    right. now left. }
  destruct (invite_row_trace cfg net (normalize cfg row) st)
    as (e & st1 & n & Hcall & Hres & Hsent & Hn & Hlog & _).
  rewrite Hcall.
  assert (Hreal : forall tail : list Event,
             posts tail = [] -> sleeps tail = [] ->
             posts (call_log (row_request cfg (normalize cfg row)) 0 n ++ tail)
             = repeat (row_request cfg (normalize cfg row)) (S n)
             /\ sleeps
                  (call_log (row_request cfg (normalize cfg row)) 0 n ++ tail)
                = sleeps (call_log (row_request cfg (normalize cfg row)) 0 n)).
  { intros tail Hp Hs.
    now rewrite posts_app, sleeps_app, Hp, Hs, !app_nil_r, call_log_posts. }
  assert (Hplain :
    exists evs,
      results st1 = results st
      /\ log st1 = log st ++ evs
      /\ sent st1 = (sent st + length (posts evs))%nat
      /\ posts evs = repeat (row_request cfg (normalize cfg row)) (S n)
      /\ sleeps evs
         = sleeps (call_log (row_request cfg (normalize cfg row)) 0 n)).
  { exists (call_log (row_request cfg (normalize cfg row)) 0 n).
    rewrite call_log_posts, repeat_length. repeat split; assumption. }
  assert (Hboxed :
    exists evs,
      results (st_error unauthorized_msg st1) = results st
      /\ log (st_error unauthorized_msg st1) = log st ++ evs
      /\ sent (st_error unauthorized_msg st1)
         = (sent st + length (posts evs))%nat
      /\ posts evs = repeat (row_request cfg (normalize cfg row)) (S n)
      /\ sleeps evs
         = sleeps (call_log (row_request cfg (normalize cfg row)) 0 n)).
  { exists (call_log (row_request cfg (normalize cfg row)) 0 n
            ++ [ErrorBox unauthorized_msg]).
    destruct (Hreal [ErrorBox unauthorized_msg] eq_refl eq_refl) as [Hp Hs].
    rewrite Hp, Hs, repeat_length. cbn [st_error results log sent].
    rewrite Hlog, <- app_assoc. repeat split; assumption. }
  assert (Hwrap : forall st',
    (exists evs,
        results st' = results st
        /\ log st' = log st ++ evs
        /\ sent st' = (sent st + length (posts evs))%nat
        /\ posts evs = repeat (row_request cfg (normalize cfg row)) (S n)
        /\ sleeps evs
           = sleeps (call_log (row_request cfg (normalize cfg row)) 0 n)) ->
    exists st'' evs,
      Some (Crash, st') = Some (Crash, st'')
      /\ results st'' = results st
      /\ log st'' = log st ++ evs
      /\ sent st'' = (sent st + length (posts evs))%nat
      /\ ((true = false /\ evs = [])
          \/ (true = true /\ false = true /\ evs = [])
          \/ (true = true /\ false = false
              /\ exists n0 : nat,
                   (n0 <= 5)%nat
                   /\ posts evs
                      = repeat (row_request cfg (normalize cfg row)) (S n0)
                   /\ sleeps evs
                      = sleeps
                          (call_log (row_request cfg (normalize cfg row))
                             0 n0)))).
  { intros st' (evs & H1 & H2 & H3 & H4 & H5). exists st', evs.
    repeat (split; [assumption || reflexivity|]).
    right. right. repeat (split; [reflexivity|]). exists n.
    repeat split; assumption. }
  destruct e as [[resp p]|msg]; [destruct (classify resp)|];
    apply Hwrap; assumption.
Qed.

(** ** The run as a whole *)









(** X23: a 401 at a row whose label is an integer ends the run without an
    exception.  When the rows before it did not end the run and the real
    call for the row returns a 401, the run is left by [break] with the
    outcomes of the rows before followed by the outcome of the row: the
    label of the row plus 2, its trimmed email, "INVITE_ERROR 401" and the
    first 300 characters of the response.  There is one outcome per row
    up to and including that row; nothing is sent or logged after the
    error box; and the rows after it play no part: the loop over the rows
    up to that row ends in the same session. *)
Theorem run_ends_at_401 (cfg : Config) (net : Network)
  (pre : list (Label * Row)) (idx : Z) (row : Row)
  (post : list (Label * Row)) (st1 st2 : Session)
  (resp : Response) (payload : Payload) :
  run_loop cfg net (Z.of_nat (length (pre ++ (LInt idx, row) :: post))) pre
    start
  = Some (Continue, st1) ->
  PyStr.truthy (email (normalize cfg row)) = true ->
  dry_run cfg = false ->
  invite_row cfg net (normalize cfg row) st1
  = Some (Returned (resp, payload), st2) ->
  status_code resp = 401 ->
  exists final,
    run cfg net (pre ++ (LInt idx, row) :: post) = Some (Break, final)
    /\ results final
       = results st1
         ++ [{| o_row := idx + 2;
                o_email := email (normalize cfg row);
                o_status := "INVITE_ERROR 401";
                o_extra := WithResponse (PyStr.take 300 (text resp)) |}]
    /\ length (results final) = S (length pre)
    /\ log final = log st2 ++ [ErrorBox unauthorized_msg]
    /\ sent final = sent st2
    /\ run_loop cfg net (Z.of_nat (length (pre ++ (LInt idx, row) :: post)))
         (pre ++ [(LInt idx, row)]) start
       = Some (Break, final).
Proof.
  intros Hpre Hmail Hdry Hcall H401.
  destruct (invite_row_results _ _ _ _ _ _ Hcall) as [Hres _].
  destruct (classify_table resp) as (_ & _ & T3 & _). specialize (T3 H401).
  pose proof (run_loop_continue_length _ _ _ _ _ _ Hpre) as Hlen.
  cbn [start results length Nat.add] in Hlen.
  eexists. split; [|split; [|split; [|split; [|split]]]].
  - unfold run. rewrite run_loop_app, Hpre. cbn [run_loop loop_iteration].
    rewrite (loop_body_call _ _ _ _ _ _ _ _ Hmail Hdry Hcall), T3.
    reflexivity.
  - cbn [append st_error results unauthorized_outcome]. now rewrite Hres.
  - cbn [append st_error results]. rewrite length_app, Hres, Hlen. cbn. lia.
  - reflexivity.
  - reflexivity.
  - rewrite run_loop_app, Hpre. cbn [run_loop loop_iteration].
    rewrite (loop_body_call _ _ _ _ _ _ _ _ Hmail Hdry Hcall), T3.
    reflexivity.
Qed.

(** X23, at a file of five rows whose third request is refused with 401:
    three outcomes, three requests, the third outcome at row 4. *)
Lemma run_ends_at_401_witness :
  exists final,
    run Examples.cfg Examples.net_401_third
      (range_index
         [Examples.alice; Examples.bob; Examples.carol; Examples.alice;
          Examples.bob])
    = Some (Break, final)
    /\ length (results final) = 3%nat
    /\ sent final = 3%nat
    /\ nth_error (results final) 2
       = Some {| o_row := 4; o_email := "carol@example.com";
                 o_status := "INVITE_ERROR 401";
                 o_extra := WithResponse "no" |}.
Proof.
  edestruct (run_ends_at_401 Examples.cfg Examples.net_401_third
               (range_index [Examples.alice; Examples.bob]) 2 Examples.carol
               (labelled_from 3 [Examples.alice; Examples.bob]))
    as (final & Hrun & Hres & Hlen & _ & Hsent & _).
  - reflexivity.
  - reflexivity.
  - reflexivity.
  - reflexivity.
  - reflexivity.
  - exists final. split; [exact Hrun|]. split; [exact Hlen|].
    split; [exact Hsent|]. rewrite Hres. reflexivity.
Defined.

(** What one iteration, at any label, adds to the requests sent. *)
Lemma loop_iteration_requests (cfg : Config) (net : Network) (total : Z)
  (label : Label) (row : Row) (st : Session) flow st' :
  loop_iteration cfg net total label row st = Some (flow, st') ->
  length (posts (log st'))
  = (length (posts (log st)) + (sent st' - sent st))%nat
  /\ ((PyStr.truthy (email (normalize cfg row)) = false
       /\ sent st' = sent st)
      \/ (PyStr.truthy (email (normalize cfg row)) = true
          /\ dry_run cfg = true /\ sent st' = sent st)
      \/ (PyStr.truthy (email (normalize cfg row)) = true
          /\ dry_run cfg = false
          /\ (sent st + 1 <= sent st' <= sent st + 6)%nat)).
Proof.
  intros Hit.
  assert (H : exists evs,
             log st' = log st ++ evs
             /\ sent st' = (sent st + length (posts evs))%nat
             /\ ((PyStr.truthy (email (normalize cfg row)) = false
                  /\ posts evs = [])
                 \/ (PyStr.truthy (email (normalize cfg row)) = true
                     /\ dry_run cfg = true /\ posts evs = [])
                 \/ (PyStr.truthy (email (normalize cfg row)) = true
                     /\ dry_run cfg = false
                     /\ exists n : nat,
                          (n <= 5)%nat
                          /\ posts evs
                             = repeat (row_request cfg (normalize cfg row))
                                 (S n)))).
  { destruct label as [idx|s]; cbn [loop_iteration] in Hit.
    - destruct (loop_body_summary cfg net total idx row st)
        as (flow1 & st1 & o & evs & Hbody & _ & Hlog & Hsent & _ & _ & Hcase).
      rewrite Hbody in Hit. injection Hit as <- <-. exists evs.
      split; [exact Hlog|]. split; [exact Hsent|].
      destruct Hcase
        as [(Hm & _ & _ & Hp & _)|[(Hm & Hd & _ & _ & Hp & _)
                                  |(Hm & Hd & n & Hn & Hp & _)]].
      + left. now split.
      + right. left. split; [exact Hm|]. now split.
      + right. right. split; [exact Hm|]. split; [exact Hd|].
        exists n. now split.
    - destruct (loop_body_text_summary cfg net row st)
        as (st1 & evs & Hbody & _ & Hlog & Hsent & Hcase).
      rewrite Hbody in Hit. injection Hit as <- <-. exists evs.
      split; [exact Hlog|]. split; [exact Hsent|].
      destruct Hcase
        as [(Hm & ->)|[(Hm & Hd & ->)|(Hm & Hd & n & Hn & Hp & _)]].
      + left. now split.
      + right. left. split; [exact Hm|]. now split.
      + right. right. split; [exact Hm|]. split; [exact Hd|].
        exists n. now split. }
  destruct H as (evs & Hlog & Hsent & Hcase).
  split; [rewrite Hlog, posts_app, length_app; lia|].
  destruct Hcase as [(Hm & Hp)|[(Hm & Hd & Hp)|(Hm & Hd & n & Hn & Hp)]];
    rewrite Hp in Hsent.
  - left. split; [exact Hm | cbn in Hsent; lia].
  - right. left. split; [exact Hm|]. split; [exact Hd|]. cbn in Hsent. lia.
  - right. right. split; [exact Hm|]. split; [exact Hd|].
    rewrite repeat_length in Hsent. lia.
Qed.

Lemma rows_with_email_cons (cfg : Config) (label : Label) (row : Row)
  (rows : list (Label * Row)) :
  rows_with_email cfg ((label, row) :: rows)
  = if PyStr.truthy (email (normalize cfg row))
    then (label, row) :: rows_with_email cfg rows
    else rows_with_email cfg rows.
Proof. reflexivity. Qed.

Lemma run_loop_requests (cfg : Config) (net : Network) (total : Z)
  (rows : list (Label * Row)) :
  forall (st : Session) flow st',
    run_loop cfg net total rows st = Some (flow, st') ->
    length (posts (log st'))
    = (length (posts (log st)) + (sent st' - sent st))%nat
    /\ (sent st <= sent st'
        <= sent st + 6 * length (rows_with_email cfg rows))%nat
    /\ (dry_run cfg = true -> sent st' = sent st)
    /\ (dry_run cfg = false -> flow = Continue ->
        (sent st + length (rows_with_email cfg rows) <= sent st')%nat).
Proof.
  induction rows as [|[label row] rows IH]; intros st flow st' Hrun.
  - cbn in Hrun. injection Hrun as <- <-. cbn. repeat split; lia.
  - cbn [run_loop] in Hrun.
    destruct (loop_iteration cfg net total label row st)
      as [[flow1 st1]|] eqn:Hbody; [|discriminate].
    destruct (loop_iteration_requests _ _ _ _ _ _ _ _ Hbody)
      as (Hposts & Hone).
    rewrite rows_with_email_cons.
    destruct flow1.
    + destruct (IH _ _ _ Hrun) as (Hp' & Hb' & Hd' & Hc').
      destruct Hone as [(Hm & Hs)|[(Hm & Hd & Hs)|(Hm & Hd & Hs)]];
        rewrite Hm; cbn [length]; repeat split; intros; try lia;
        try (specialize (Hd' ltac:(assumption)); lia);
        try (specialize (Hc' ltac:(assumption) ltac:(assumption)); lia);
        congruence.
    + injection Hrun as <- <-.
      destruct Hone as [(Hm & Hs)|[(Hm & Hd & Hs)|(Hm & Hd & Hs)]];
        rewrite Hm; cbn [length]; repeat split; intros; try lia;
        congruence.
    + injection Hrun as <- <-.
      destruct Hone as [(Hm & Hs)|[(Hm & Hd & Hs)|(Hm & Hd & Hs)]];
        rewrite Hm; cbn [length]; repeat split; intros; try lia;
        congruence.
Qed.

(** X10: a run sends no request for a row without email and none in a
    dry run; for each other row it reaches it sends at least one and at
    most six (the first try and five retries).  So the requests of a run
    never number more than six times the rows that have an email, and the
    requests logged are exactly those counted. *)
Theorem run_request_budget (cfg : Config) (net : Network)
  (df : list (Label * Row)) :
  exists flow st,
    run cfg net df = Some (flow, st)
    /\ length (posts (log st)) = sent st
    /\ (sent st <= 6 * length (rows_with_email cfg df))%nat
    /\ (dry_run cfg = true -> sent st = 0%nat)
    /\ (dry_run cfg = false -> flow = Continue ->
        (length (rows_with_email cfg df) <= sent st)%nat).
Proof.
  unfold run.
  destruct (run_loop_ends cfg net (Z.of_nat (length df)) df start)
    as (flow & st & Hrun).
  destruct (run_loop_requests _ _ _ _ _ _ _ Hrun) as (Hp & Hb & Hd & Hc).
  cbn [start sent log posts flat_map length] in *.
  exists flow, st. split; [exact Hrun|]. repeat split; intros; try lia.
  - now apply Hd.
  - specialize (Hc ltac:(assumption) ltac:(assumption)). lia.
Qed.

Lemma take_length (n : nat) (s : string) :
  (String.length (PyStr.take n s) <= n)%nat.
Proof.
  unfold PyStr.take. revert s.
  induction n as [|n IH]; intros [|c t]; cbn; try lia.
  specialize (IH t). lia.
Qed.

(** X11: the response text kept with an outcome is never longer than 300
    characters, however long the body of the response was. *)
Theorem run_snippets_at_most_300 (cfg : Config) (net : Network)
  (df : list (Label * Row)) (flow : Flow) (st : Session) :
  run cfg net df = Some (flow, st) ->
  forall o : Outcome,
    In o (results st) ->
    match o_extra o with
    | WithResponse snippet => (String.length snippet <= 300)%nat
    | WithEcho _ _ _ snippet => (String.length snippet <= 300)%nat
    | _ => True
    end.
Proof.
  unfold run. intros Hrun.
  refine (run_loop_invariant cfg net (Z.of_nat (length df))
            (fun s => forall o, In o (results s) ->
                       match o_extra o with
                       | WithResponse snippet =>
                           (String.length snippet <= 300)%nat
                       | WithEcho _ _ _ snippet =>
                           (String.length snippet <= 300)%nat
                       | _ => True
                       end)
            _ df start flow st _ Hrun).
  - intros [idx|s0] row s fl s' HP Hbody o Hin; cbn [loop_iteration] in Hbody.
    + destruct (loop_body_summary cfg net (Z.of_nat (length df)) idx row s)
        as (fl1 & s1 & o1 & evs & Hbody1 & Hres & _ & _ & _ & _ & Hcase).
      rewrite Hbody in Hbody1. injection Hbody1 as <- <-.
      rewrite Hres in Hin. apply in_app_or in Hin as [Hin|[<-|[]]];
        [now apply HP|].
      destruct Hcase as [(_ & _ & -> & _)|[(_ & _ & _ & -> & _)
                                           |(_ & _ & n & _ & _ & H)]];
        [exact I | exact I |].
      destruct H as [(_ & _ & [(resp & status & -> & _)|(msg & -> & _)])
                    |(_ & _ & resp & -> & _)];
        cbn; try exact I; apply take_length.
    + destruct (loop_body_text_crashes cfg net row s)
        as (s1 & Hbody1 & Hres & _).
      rewrite Hbody1 in Hbody. injection Hbody as <- <-.
      rewrite Hres in Hin. now apply HP.
  - intros o [].
Qed.

(** X11, at a response whose body has 400 characters. *)
Lemma run_snippets_at_most_300_witness :
  exists st o,
    run Examples.cfg Samples.net_long (range_index [Examples.alice])
    = Some (Continue, st)
    /\ results st = [o]
    /\ match o_extra o with
       | WithResponse snippet => (String.length snippet <= 300)%nat
       | WithEcho _ _ _ snippet => (String.length snippet <= 300)%nat
       | _ => True
       end.
Proof.
  eexists _, _. split; [reflexivity|]. split; [reflexivity|].
  apply (run_snippets_at_most_300 Examples.cfg Samples.net_long
           (range_index [Examples.alice]) Continue _ eq_refl).
  left. reflexivity.
Defined.

Lemma fold_add_app (a b : list Z) :
  fold_right Z.add 0 (a ++ b) = fold_right Z.add 0 a + fold_right Z.add 0 b.
Proof. induction a as [|z a IH]; cbn; [reflexivity | lia]. Qed.

(** What one iteration adds to the time slept. *)
Lemma loop_body_slept (cfg : Config) (net : Network) (total idx : Z)
  (row : Row) (st : Session) flow st' :
  loop_body cfg net total idx row st = Some (flow, st') ->
  exists z,
    slept (log st') = slept (log st) + z
    /\ ((PyStr.truthy (email (normalize cfg row)) = false /\ z = 0)
        \/ (PyStr.truthy (email (normalize cfg row)) = true
            /\ dry_run cfg = true /\ z = 0)
        \/ (PyStr.truthy (email (normalize cfg row)) = true
            /\ dry_run cfg = false
            /\ 0 <= z <= Z.of_N (throttle_ms cfg) + seconds 50
            /\ (flow = Continue -> Z.of_N (throttle_ms cfg) <= z))).
Proof.
  intros Hbody.
  destruct (loop_body_summary cfg net total idx row st)
    as (fl1 & s1 & o1 & evs & Hbody1 & _ & Hlog & _ & _ & _ & Hcase).
  rewrite Hbody in Hbody1. injection Hbody1 as <- <-.
  exists (slept evs). split; [now rewrite Hlog, slept_app|].
  unfold slept.
  destruct Hcase as [(Hm & _ & _ & _ & Hs)|[(Hm & Hd & _ & _ & _ & Hs)
                                           |(Hm & Hd & n & Hn & _ & H)]].
  - left. now rewrite Hs.
  - right. left. now rewrite Hs.
  - right. right. split; [exact Hm|]. split; [exact Hd|].
    destruct (call_log_sleeps (row_request cfg (normalize cfg row)) n 0)
      as [Hlen Hall]; [lia|].
    pose proof (slept_bounded _ _ _ Hall) as Hsum. rewrite Hlen in Hsum.
    unfold seconds in *.
    destruct H as [(-> & Hs & _)|(-> & Hs & _)]; rewrite Hs.
    + rewrite fold_add_app.
      assert (fold_right Z.add 0
                (if (throttle_ms cfg =? 0)%N then []
                 else [Z.of_N (throttle_ms cfg)])
              = Z.of_N (throttle_ms cfg)) as ->.
      { destruct (throttle_ms cfg =? 0)%N eqn:E; cbn; [|lia].
        apply N.eqb_eq in E. now rewrite E. }
      split; [lia|]. intros _. lia.
    + split; [lia|]. discriminate.
Qed.

(** What one iteration, at any label, adds to the time slept. *)
Lemma loop_iteration_slept (cfg : Config) (net : Network) (total : Z)
  (label : Label) (row : Row) (st : Session) flow st' :
  loop_iteration cfg net total label row st = Some (flow, st') ->
  exists z,
    slept (log st') = slept (log st) + z
    /\ ((PyStr.truthy (email (normalize cfg row)) = false /\ z = 0)
        \/ (PyStr.truthy (email (normalize cfg row)) = true
            /\ dry_run cfg = true /\ z = 0)
        \/ (PyStr.truthy (email (normalize cfg row)) = true
            /\ dry_run cfg = false
            /\ 0 <= z <= Z.of_N (throttle_ms cfg) + seconds 50
            /\ (flow = Continue -> Z.of_N (throttle_ms cfg) <= z))).
Proof.
  destruct label as [idx|s]; cbn [loop_iteration]; intros Hit.
  - exact (loop_body_slept _ _ _ _ _ _ _ _ Hit).
  - destruct (loop_body_text_summary cfg net row st)
      as (st1 & evs & Hbody & _ & Hlog & _ & Hcase).
    rewrite Hbody in Hit. injection Hit as <- <-.
    exists (slept evs). split; [now rewrite Hlog, slept_app|].
    destruct Hcase as [(Hm & ->)|[(Hm & Hd & ->)|(Hm & Hd & n & Hn & _ & Hs)]].
    + left. now split.
    + right. left. split; [exact Hm|]. now split.
    + right. right. split; [exact Hm|]. split; [exact Hd|].
      destruct (call_log_sleeps (row_request cfg (normalize cfg row)) n 0)
        as [Hlen Hall]; [lia|].
      pose proof (slept_bounded _ _ _ Hall) as Hsum. rewrite Hlen in Hsum.
      pose proof (N2Z.is_nonneg (throttle_ms cfg)) as Hthr.
      unfold slept. rewrite Hs. unfold seconds in *.
      split; [lia | discriminate].
Qed.

Lemma run_loop_slept (cfg : Config) (net : Network) (total : Z)
  (rows : list (Label * Row)) :
  forall (st : Session) flow st',
    run_loop cfg net total rows st = Some (flow, st') ->
    slept (log st) <= slept (log st')
    /\ slept (log st')
       <= slept (log st)
          + (Z.of_N (throttle_ms cfg) + seconds 50)
            * Z.of_nat (length (rows_with_email cfg rows))
    /\ (dry_run cfg = true -> slept (log st') = slept (log st))
    /\ (dry_run cfg = false -> flow = Continue ->
        slept (log st)
        + Z.of_N (throttle_ms cfg)
          * Z.of_nat (length (rows_with_email cfg rows))
        <= slept (log st')).
Proof.
  induction rows as [|[label row] rows IH]; intros st flow st' Hrun.
  - cbn in Hrun. injection Hrun as <- <-. cbn. repeat split; lia.
  - cbn [run_loop] in Hrun.
    destruct (loop_iteration cfg net total label row st)
      as [[fl1 s1]|] eqn:Hbody; [|discriminate].
    destruct (loop_iteration_slept _ _ _ _ _ _ _ _ Hbody) as (z & Hz & Hcase).
    pose proof (N2Z.is_nonneg (throttle_ms cfg)) as Hthr.
    assert (Hlen : exists b,
               Z.of_nat (length (rows_with_email cfg ((label, row) :: rows)))
               = Z.of_nat (length (rows_with_email cfg rows)) + b
               /\ 0 <= z <= (Z.of_N (throttle_ms cfg) + seconds 50) * b
               /\ (dry_run cfg = true -> z = 0)
               /\ (dry_run cfg = false -> fl1 = Continue ->
                   Z.of_N (throttle_ms cfg) * b <= z)).
    { rewrite rows_with_email_cons.
      unfold seconds in *.
      destruct Hcase as [(Hm & ->)|[(Hm & Hd & ->)|(Hm & Hd & Hb & Hc)]];
        rewrite Hm; cbv iota; cbn [length].
      - exists 0. repeat split; intros; lia.
      - exists 1. split; [lia|]. split; [lia|]. split; [reflexivity|].
        intros H. congruence.
      - exists 1. split; [lia|]. split; [lia|]. split; [congruence|].
        intros _ H. specialize (Hc H). lia. }
    destruct Hlen as (b & -> & Hzb & Hzdry & Hzlow).
    rewrite !Z.mul_add_distr_l.
    assert (Hnn : 0 <= (Z.of_N (throttle_ms cfg) + seconds 50)
                       * Z.of_nat (length (rows_with_email cfg rows)))
      by (apply Z.mul_nonneg_nonneg; unfold seconds; lia).
    destruct fl1.
    + destruct (IH _ _ _ Hrun) as (H1 & H2 & H3 & H4).
      repeat split; intros; try lia.
      * rewrite (H3 H), Hz, (Hzdry H). lia.
      * specialize (H4 H H0). specialize (Hzlow H eq_refl). lia.
    + injection Hrun as <- <-.
      repeat split; intros; try lia; try congruence.
      rewrite Hz, (Hzdry H). lia.
    + injection Hrun as <- <-.
      repeat split; intros; try lia; try congruence.
      rewrite Hz, (Hzdry H). lia.
Qed.

(** X12: the time a run sleeps.  A dry run does not sleep.  Otherwise a
    run that goes through the whole file sleeps at least [throttle_ms]
    milliseconds for each row that has an email; and no run sleeps more
    than [throttle_ms] milliseconds plus 50 seconds of back-off for each
    such row. *)
Theorem run_sleep_bounds (cfg : Config) (net : Network)
  (df : list (Label * Row)) :
  exists flow st,
    run cfg net df = Some (flow, st)
    /\ 0 <= slept (log st)
       <= (Z.of_N (throttle_ms cfg) + seconds 50)
          * Z.of_nat (length (rows_with_email cfg df))
    /\ (dry_run cfg = true -> slept (log st) = 0)
    /\ (dry_run cfg = false -> flow = Continue ->
        Z.of_N (throttle_ms cfg) * Z.of_nat (length (rows_with_email cfg df))
        <= slept (log st)).
Proof.
  unfold run.
  destruct (run_loop_ends cfg net (Z.of_nat (length df)) df start)
    as (flow & st & Hrun).
  destruct (run_loop_slept _ _ _ _ _ _ _ Hrun) as (H1 & H2 & H3 & H4).
  change (slept (log start)) with 0 in *.
  exists flow, st. split; [exact Hrun|]. repeat split; intros; try lia.
  - now apply H3.
  - specialize (H4 ltac:(assumption) ltac:(assumption)). lia.
Qed.

(** X13: the results of a run use five shapes and no other.  An outcome
    is "SKIPPED: missing email" with an empty email and nothing else; or
    "DRY_RUN: would INVITE" with a payload for its email; or "INVITED",
    "ALREADY_EXISTS" or "INVITE_ERROR <code>" (the code not 401) with the
    fields of the row and the response snippet; or "INVITE_ERROR 401" with
    the response alone; or "NETWORK_ERROR" with the error.  Only a skipped
    outcome has an empty email. *)
Theorem run_outcome_shapes (cfg : Config) (net : Network)
  (df : list (Label * Row)) (flow : Flow) (st : Session) :
  run cfg net df = Some (flow, st) ->
  forall o : Outcome,
    In o (results st) ->
    (o_status o = "SKIPPED: missing email" /\ o_extra o = NoExtra
     /\ o_email o = "")
    \/ (o_email o <> ""
        /\ ((o_status o = "DRY_RUN: would INVITE"
             /\ exists p, o_extra o = WithPayload p /\ d_email p = o_email o)
            \/ ((o_status o = "INVITED" \/ o_status o = "ALREADY_EXISTS"
                 \/ exists code : Z,
                      code <> 401
                      /\ o_status o
                         = ("INVITE_ERROR " ++ PyStr.of_int code)%string)
                /\ exists f l r snippet, o_extra o = WithEcho f l r snippet)
            \/ (o_status o = "INVITE_ERROR 401"
                /\ exists snippet, o_extra o = WithResponse snippet)
            \/ (o_status o = "NETWORK_ERROR"
                /\ exists error, o_extra o = WithError error))).
Proof.
  unfold run. intros Hrun.
  refine (run_loop_invariant cfg net (Z.of_nat (length df))
            (fun s => forall o, In o (results s) -> _)
            _ df start flow st _ Hrun).
  - intros [idx|s0] row s fl s' HP Hbody o Hin; cbn [loop_iteration] in Hbody.
    2:{ destruct (loop_body_text_crashes cfg net row s)
          as (s1 & Hbody1 & Hres & _).
        rewrite Hbody1 in Hbody. injection Hbody as <- <-.
        rewrite Hres in Hin. now apply HP. }
    destruct (loop_body_summary cfg net (Z.of_nat (length df)) idx row s)
      as (fl1 & s1 & o1 & evs & Hbody1 & Hres & _ & _ & _ & Hmail & Hcase).
    rewrite Hbody in Hbody1. injection Hbody1 as <- <-.
    rewrite Hres in Hin. apply in_app_or in Hin as [Hin|[<-|[]]];
      [now apply HP|].
    assert (Hne : PyStr.truthy (email (normalize cfg row)) = true ->
                  o1 = o1 -> o_email o1 <> "").
    { intros Ht _ He. rewrite Hmail in He. rewrite He in Ht. discriminate. }
    destruct Hcase as [(_ & _ & -> & _)|[(Ht & _ & _ & -> & _)
                                         |(Ht & _ & n & _ & _ & H)]].
    + left. repeat split.
    + right. split; [exact (Hne Ht eq_refl)|]. left.
      split; [reflexivity|]. eexists. split; reflexivity.
    + right. split; [exact (Hne Ht eq_refl)|]. right.
      destruct H as [(_ & _ & [(resp & status & -> & Hcls & _)|(msg & -> & _)])
                    |(_ & _ & resp & -> & _)].
      * left. destruct (classify_tagged resp status Hcls) as (H401 & Hst).
        split; [|cbn; eexists _, _, _, _; reflexivity].
        cbn [call_outcome o_status].
        destruct Hst as [-> | [-> | ->]]; [now left | right; now left|].
        right. right. exists (status_code resp). now split.
      * right. right. split; [reflexivity|]. eexists. reflexivity.
      * right. left. split; [reflexivity|]. eexists. reflexivity.
  - intros o [].
Qed.

(** X13, at a file with an invited row, a row without email and a row
    that is refused. *)
Lemma run_outcome_shapes_witness :
  exists st o,
    run Examples.cfg Examples.net_401_third
      (range_index
         [Examples.alice; Examples.nobody; Examples.bob; Examples.carol])
    = Some (Break, st)
    /\ nth_error (results st) 1 = Some o
    /\ o_status o = "SKIPPED: missing email".
Proof.
  eexists _, _. split; [reflexivity|]. split; [reflexivity|].
  destruct (run_outcome_shapes Examples.cfg Examples.net_401_third
              (range_index
                 [Examples.alice; Examples.nobody; Examples.bob;
                  Examples.carol])
              Break _ eq_refl (skipped_outcome 1))
    as [(Hs & _)|(He & _)].
  - right. left. reflexivity.
  - exact Hs.
  - exfalso. apply He. reflexivity.
Defined.

Lemma row_request_content (cfg : Config) (f : Fields) :
  row_request cfg f
  = {| url := (BASE ++ "/accounts/" ++ account_id cfg ++ "/users")%string;
       headers := [("X-Payhawk-ApiKey", api_key cfg);
                   ("Accept", "application/json");
                   ("Content-Type", "application/json")];
       json := {| p_email := email f;
                  p_role := if PyStr.truthy (role f) then role f
                            else "employee";
                  p_firstName := if PyStr.truthy (first f)
                                 then Some (first f) else None;
                  p_lastName := if PyStr.truthy (last f)
                                then Some (last f) else None |};
       timeout := 30 |}.
Proof.
  unfold row_request, request_of, build_request, build_payload,
    PyStr.or_none, PyStr.or_else.
  destruct (PyStr.truthy (first f)) eqn:Hf; rewrite ?Hf;
    destruct (PyStr.truthy (last f)) eqn:Hl; rewrite ?Hl;
    destruct (PyStr.truthy (role f)) eqn:Hr; rewrite ?Hr; reflexivity.
Qed.

(** X14: what goes over the wire for a row.  Every request the loop sends
    for a row, retries included, is the same: to the users of the account,
    with the API key header, a 30 second time-out, the trimmed email, the
    role of the row or "employee" when that is empty, and a first and a
    last name only when they are not empty (the keys are left out, never
    sent empty). *)
Theorem row_requests_all_alike (cfg : Config) (net : Network) (total idx : Z)
  (row : Row) (st : Session) :
  exists flow st',
    loop_body cfg net total idx row st = Some (flow, st')
    /\ posts (log st')
       = posts (log st)
         ++ repeat
              {| url := (BASE ++ "/accounts/" ++ account_id cfg
                         ++ "/users")%string;
                 headers := [("X-Payhawk-ApiKey", api_key cfg);
                             ("Accept", "application/json");
                             ("Content-Type", "application/json")];
                 json :=
                   {| p_email := email (normalize cfg row);
                      p_role := if PyStr.truthy (role (normalize cfg row))
                                then role (normalize cfg row)
                                else "employee";
                      p_firstName :=
                        if PyStr.truthy (first (normalize cfg row))
                        then Some (first (normalize cfg row)) else None;
                      p_lastName :=
                        if PyStr.truthy (last (normalize cfg row))
                        then Some (last (normalize cfg row)) else None |};
                 timeout := 30 |}
              (sent st' - sent st).
Proof.
  destruct (loop_body_summary cfg net total idx row st)
    as (flow & st' & o & evs & Hbody & _ & Hlog & Hsent & _ & _ & Hcase).
  exists flow, st'. split; [exact Hbody|].
  rewrite Hlog, posts_app, <- row_request_content. f_equal.
  replace (sent st' - sent st)%nat with (length (posts evs)) by lia.
  destruct Hcase as [(_ & _ & _ & Hp & _)|[(_ & _ & _ & _ & Hp & _)
                                          |(_ & _ & n & _ & Hp & _)]];
    rewrite Hp; [reflexivity | reflexivity |].
  now rewrite repeat_length.
Qed.

(** X15: a missing value is not an empty one.  A cell that pandas read as
    NaN is true for Python, so [nan or ""] is NaN and its [str] is "nan":
    a row whose email cell is missing is not skipped, it is handled as the
    address "nan" (simulated in a dry run, sent in a real one); and a
    mapped optional column whose cell is missing gives "nan" as well. *)
Theorem missing_value_read_as_nan (cfg : Config) (net : Network)
  (total idx : Z) (row : Row) (st : Session) :
  (row_get row (email_col cfg) (CStr "") = CNaN ->
   email (normalize cfg row) = "nan"
   /\ exists flow st' o,
        loop_body cfg net total idx row st = Some (flow, st')
        /\ results st' = results st ++ [o]
        /\ o_email o = "nan"
        /\ o_status o <> "SKIPPED: missing email"
        /\ (dry_run cfg = false ->
            exists n : nat,
              posts (log st')
              = posts (log st)
                ++ repeat (row_request cfg (normalize cfg row)) (S n)
              /\ p_email (json (row_request cfg (normalize cfg row)))
                 = "nan"))
  /\ (forall (c absent : string),
         col_selected (Some c) = true ->
         row_get row c (CStr "") = CNaN ->
         read_optional row (Some c) absent = "nan").
Proof.
  split.
  - intros Hnan.
    assert (Hmail : email (normalize cfg row) = "nan").
    { cbn [normalize email]. unfold read_email, email_text.
      rewrite Hnan. reflexivity. }
    split; [exact Hmail|].
    destruct (loop_body_summary cfg net total idx row st)
      as (flow & st' & o & evs & Hbody & Hres & Hlog & _ & _ & Ho & Hcase).
    exists flow, st', o. split; [exact Hbody|]. split; [exact Hres|].
    split; [congruence|].
    destruct Hcase as [(Ht & _)|[(_ & Hd & _ & -> & _)
                                 |(_ & Hd & n & _ & Hp & H)]].
    + rewrite Hmail in Ht. discriminate.
    + split; [discriminate|]. congruence.
    + split.
      * destruct H as [(_ & _ & [(resp & status & -> & Hcls & _)
                                |(msg & -> & _)])
                      |(_ & _ & resp & -> & _)]; try discriminate.
        destruct (classify_tagged resp status Hcls) as (_ & [->|[->| ->]]);
          discriminate.
      * intros _. exists n. rewrite Hlog, posts_app, Hp.
        split; [reflexivity|]. exact Hmail.
  - intros c absent Hsel Hnan. unfold read_optional.
    rewrite Hsel, Hnan. reflexivity.
Qed.

(** X15, at a row whose email cell is missing, in a real run. *)
Lemma missing_value_read_as_nan_witness :
  map o_email
    (outcomes (loop_body Examples.cfg Examples.net_ok 1 0
                 Samples.blank_cell_row start))
  = ["nan"]
  /\ map (fun rq => p_email (json rq))
       (posts
          (match loop_body Examples.cfg Examples.net_ok 1 0
                   Samples.blank_cell_row start with
           | Some (_, st') => log st'
           | None => []
           end))
     = ["nan"].
Proof.
  destruct (proj1 (missing_value_read_as_nan Examples.cfg Examples.net_ok 1 0
                     Samples.blank_cell_row start) eq_refl)
    as (_ & flow & st' & o & Hbody & Hres & Ho & _ & Hreal).
  destruct (Hreal eq_refl) as (n & Hposts & Hpay).
  rewrite Hbody. cbn [outcomes]. rewrite Hres. cbn [start results app map].
  rewrite Ho. split; [reflexivity|].
  assert (Hst : Some (flow, st')
                = loop_body Examples.cfg Examples.net_ok 1 0
                    Samples.blank_cell_row start) by (symmetry; exact Hbody).
  vm_compute in Hst. injection Hst as _ ->. reflexivity.
Defined.



(** ** Credentials *)

Lemma or_else_empty (s : string) : PyStr.or_else (Some s) "" = s.
Proof.
  cbn. destruct (PyStr.truthy s) eqn:E; [reflexivity|].
  symmetry. now apply truthy_false_iff.
Qed.

Lemma truthy_true_iff (s : string) : PyStr.truthy s = true <-> s <> "".
Proof.
  split.
  - intros H E. subst s. discriminate.
  - intros H. destruct (PyStr.truthy s) eqn:E; [reflexivity|].
    apply truthy_false_iff in E. contradiction.
Qed.

(** X17: [get_creds] takes both credentials from one place.  Either both
    secrets are there and neither is blank, and the key and the account
    are the two secrets, trimmed, from "secrets.toml" whatever the
    environment holds; or, as soon as one secret is missing or blank, both
    come from the environment, trimmed, an unset variable giving the
    empty text, and whatever the other secret was.  What it returns is
    trimmed in either case. *)
Theorem get_creds_single_source (secrets : string -> SecretEntry)
  (env : Environ) :
  ((exists k a,
       secrets "PAYHAWK_API_KEY" = SecretText k
       /\ secrets "PAYHAWK_ACCOUNT_ID" = SecretText a
       /\ PyStr.strip k <> "" /\ PyStr.strip a <> ""
       /\ get_creds secrets env
          = {| c_api_key := PyStr.strip k; c_account_id := PyStr.strip a;
               c_source := "secrets.toml" |})
   \/ ((secrets "PAYHAWK_API_KEY" = SecretRaises
        \/ secrets "PAYHAWK_ACCOUNT_ID" = SecretRaises
        \/ (exists k, secrets "PAYHAWK_API_KEY" = SecretText k
                      /\ PyStr.strip k = "")
        \/ (exists a, secrets "PAYHAWK_ACCOUNT_ID" = SecretText a
                      /\ PyStr.strip a = ""))
       /\ get_creds secrets env
          = {| c_api_key :=
                 PyStr.strip (match env "PAYHAWK_API_KEY" with
                              | Some v => v
                              | None => ""
                              end);
               c_account_id :=
                 PyStr.strip (match env "PAYHAWK_ACCOUNT_ID" with
                              | Some v => v
                              | None => ""
                              end);
               c_source := ".env" |}))
  /\ PyStr.strip (c_api_key (get_creds secrets env))
     = c_api_key (get_creds secrets env)
  /\ PyStr.strip (c_account_id (get_creds secrets env))
     = c_account_id (get_creds secrets env).
Proof.
  assert (Henv : creds_from_env env
                 = {| c_api_key :=
                        PyStr.strip (match env "PAYHAWK_API_KEY" with
                                     | Some v => v
                                     | None => ""
                                     end);
                      c_account_id :=
                        PyStr.strip (match env "PAYHAWK_ACCOUNT_ID" with
                                     | Some v => v
                                     | None => ""
                                     end);
                      c_source := ".env" |}).
  { unfold creds_from_env.
    destruct (env "PAYHAWK_API_KEY") as [v|];
      destruct (env "PAYHAWK_ACCOUNT_ID") as [v'|];
      rewrite ?or_else_empty; reflexivity. }
  unfold get_creds.
  destruct (secrets "PAYHAWK_API_KEY") as [|k] eqn:Hk.
  { rewrite Henv. split; [right; split; [now left | reflexivity]|].
    split; apply strip_idempotent. }
  destruct (secrets "PAYHAWK_ACCOUNT_ID") as [|a] eqn:Ha.
  { rewrite Henv. split; [right; split; [right; now left | reflexivity]|].
    split; apply strip_idempotent. }
  rewrite !or_else_empty.
  destruct (PyStr.truthy (PyStr.strip k)) eqn:Tk; cbn [andb].
  - destruct (PyStr.truthy (PyStr.strip a)) eqn:Ta.
    + split; [|split; apply strip_idempotent].
      left. exists k, a. repeat split; try reflexivity;
        now apply truthy_true_iff.
    + rewrite Henv. split; [|split; apply strip_idempotent].
      right. split; [|reflexivity]. right. right. right.
      exists a. split; [reflexivity|]. now apply truthy_false_iff.
  - rewrite Henv. split; [|split; apply strip_idempotent].
    right. split; [|reflexivity]. right. right. left.
    exists k. split; [reflexivity|]. now apply truthy_false_iff.
Qed.

(** ** Column auto-detection *)

Lemma dict_get_set (d : Dict) (k v k' : string) :
  dict_get (dict_set d k v) k'
  = if String.eqb k k' then Some v else dict_get d k'.
Proof.
  induction d as [|[k0 v0] rest IH]; cbn [dict_set dict_get].
  - reflexivity.
  - destruct (String.eqb k0 k) eqn:E0; cbn [dict_get].
    + apply String.eqb_eq in E0. subst k0.
      now destruct (String.eqb k k').
    + destruct (String.eqb k0 k') eqn:E1.
      * apply String.eqb_eq in E1. subst k'.
        rewrite String.eqb_sym, E0. reflexivity.
      * exact IH.
Qed.

Lemma cols_lower_snoc (cols : list string) (c : string) :
  cols_lower (cols ++ [c]) = dict_set (cols_lower cols) (PyStr.lower c) c.
Proof. unfold cols_lower. now rewrite fold_left_app. Qed.

(** [cols_lower[k]] is the last column whose lower-cased name is [k];
    [k] is not a key when there is none. *)
Lemma cols_lower_get (cols : list string) (k : string) :
  match dict_get (cols_lower cols) k with
  | Some c =>
      exists before after,
        cols = before ++ c :: after
        /\ PyStr.lower c = k
        /\ Forall (fun c' => PyStr.lower c' <> k) after
  | None => Forall (fun c' => PyStr.lower c' <> k) cols
  end.
Proof.
  induction cols as [|c cols IH] using rev_ind.
  - cbn. constructor.
  - rewrite cols_lower_snoc, dict_get_set.
    destruct (String.eqb (PyStr.lower c) k) eqn:E.
    + apply String.eqb_eq in E. exists cols, []. repeat split; [exact E|].
      constructor.
    + apply String.eqb_neq in E.
      destruct (dict_get (cols_lower cols) k) as [c0|].
      * destruct IH as (before & after & -> & Hc0 & Hafter).
        exists before, (after ++ [c]). rewrite <- app_assoc.
        repeat split; [exact Hc0|].
        apply Forall_app. split; [exact Hafter|]. now constructor.
      * apply Forall_app. split; [exact IH|]. now constructor.
Qed.

(** [l.index(x)] finds [x] when it is there. *)
Lemma list_index_in (x : string) (l : list string) :
  In x l ->
  exists i, list_index x l = Some i /\ nth_error l i = Some x.
Proof.
  induction l as [|y l IH]; intros Hin; [destruct Hin|].
  cbn [list_index]. destruct (String.eqb y x) eqn:E.
  - apply String.eqb_eq in E. subst y. now exists 0%nat.
  - destruct Hin as [Hin|Hin]; [apply String.eqb_neq in E; contradiction|].
    destruct (IH Hin) as (i & Hi & Hn). exists (S i).
    rewrite Hi. now split.
Qed.

(** X18: the default of the email select box.  On a file with at least
    one column its index is always a position of the list (the
    [.index] never raises).  When some column is named "email" in any
    letter case, the column shown first is such a column, the last one of
    the file; otherwise it is the first column of the file. *)
Theorem email_default_autodetected (cols : list string) :
  cols <> [] ->
  exists i c,
    email_index cols = Some i
    /\ preselected cols (email_index cols) = Some c
    /\ ((exists c', In c' cols /\ PyStr.lower c' = "email") ->
        PyStr.lower c = "email"
        /\ exists before after,
             cols = before ++ c :: after
             /\ Forall (fun c' => PyStr.lower c' <> "email") after)
    /\ ((forall c', In c' cols -> PyStr.lower c' <> "email") ->
        i = 0%nat /\ Some c = hd_error cols).
Proof.
  intros Hne. unfold email_index.
  pose proof (cols_lower_get cols "email") as Hget.
  destruct (dict_get (cols_lower cols) "email") as [c|].
  - destruct Hget as (before & after & Hcols & Hlow & Hafter).
    assert (Hin : In c cols) by (rewrite Hcols; apply in_elt).
    destruct (list_index_in c cols Hin) as (i & Hi & Hn).
    exists i, c. rewrite Hi. cbn [preselected].
    split; [reflexivity|]. split; [exact Hn|]. split.
    + intros _. split; [exact Hlow|]. now exists before, after.
    + intros Hnone. exfalso. exact (Hnone c Hin Hlow).
  - destruct cols as [|c0 cols]; [contradiction|].
    exists 0%nat, c0. cbn. split; [reflexivity|]. split; [reflexivity|].
    split.
    + intros (c' & Hin & Hlow). exfalso.
      rewrite Forall_forall in Hget. exact (Hget c' Hin Hlow).
    + intros _. split; reflexivity.
Qed.

(** X18, at the headers Name, Email, EMAIL, Role: the third is shown. *)
Lemma email_default_autodetected_witness :
  email_index Samples.headers_mixed = Some 2%nat
  /\ preselected Samples.headers_mixed (email_index Samples.headers_mixed)
     = Some "EMAIL".
Proof.
  destruct (email_default_autodetected Samples.headers_mixed)
    as (i & c & Hi & Hc & _).
  - discriminate.
  - split; reflexivity.
Defined.

(** X19: the default of an optional select box, and what the loop makes
    of it.  Its index is always a position of the choices.  When no
    column is named like the label, in any letter case, the choice shown
    first is "(none)" and the loop does not read the field; when one is,
    the choice shown first is the last such column of the file and, for a
    label that is neither empty nor "(none)", the loop reads the field
    from it. *)
Theorem optional_default_autodetected (cols : list string) (label : string) :
  exists i c,
    optional_index cols label = Some i
    /\ preselected (optional_choices cols) (optional_index cols label)
       = Some c
    /\ ((forall c', In c' cols -> PyStr.lower c' <> label) ->
        i = 0%nat /\ c = "(none)" /\ col_selected (Some c) = false)
    /\ ((exists c', In c' cols /\ PyStr.lower c' = label) ->
        PyStr.lower c = label
        /\ (exists before after,
               cols = before ++ c :: after
               /\ Forall (fun c' => PyStr.lower c' <> label) after)
        /\ (label <> "" -> label <> "(none)" ->
            col_selected (Some c) = true)).
Proof.
  unfold optional_index.
  pose proof (cols_lower_get cols label) as Hget.
  destruct (dict_get (cols_lower cols) label) as [c|].
  - destruct Hget as (before & after & Hcols & Hlow & Hafter).
    assert (Hin : In c (optional_choices cols)).
    { right. rewrite Hcols. apply in_elt. }
    destruct (list_index_in c _ Hin) as (i & Hi & Hn).
    exists i, c. rewrite Hi. cbn [preselected].
    split; [reflexivity|]. split; [exact Hn|]. split.
    + intros Hnone. exfalso. apply (Hnone c); [|exact Hlow].
      rewrite Hcols. apply in_elt.
    + intros _. split; [exact Hlow|]. split; [now exists before, after|].
      intros Hl1 Hl2. unfold col_selected.
      assert (Hc1 : c <> "").
      { intros E. subst c. cbn in Hlow. congruence. }
      assert (Hc2 : c <> "(none)").
      { intros E. subst c.
        change (PyStr.lower "(none)") with "(none)" in Hlow. congruence. }
      apply truthy_true_iff in Hc1. apply String.eqb_neq in Hc2.
      now rewrite Hc1, Hc2.
  - exists 0%nat, "(none)". cbn. split; [reflexivity|].
    split; [reflexivity|]. split.
    + intros _. repeat split.
    + intros (c' & Hin & Hlow). exfalso.
      rewrite Forall_forall in Hget. exact (Hget c' Hin Hlow).
Qed.

(** X19, at the headers Name, Email, EMAIL, Role and the labels role and
    first. *)
Lemma optional_default_autodetected_witness :
  preselected (optional_choices Samples.headers_mixed)
    (optional_index Samples.headers_mixed "role")
  = Some "Role"
  /\ col_selected (Some "Role") = true
  /\ preselected (optional_choices Samples.headers_mixed)
       (optional_index Samples.headers_mixed "first")
     = Some "(none)".
Proof.
  destruct (optional_default_autodetected Samples.headers_mixed "role")
    as (i & c & Hi & Hc & _ & Hsome).
  destruct Hsome as (_ & _ & Hsel).
  - exists "Role". split; [|reflexivity]. cbn. tauto.
  - assert (E : Some c = Some "Role") by (rewrite <- Hc; reflexivity).
    injection E as ->.
    split; [reflexivity|]. split; [|reflexivity].
    apply Hsel; discriminate.
Defined.

Lemma list_mem_in (x : string) (l : list string) :
  In x l -> list_mem x l = true.
Proof.
  intros Hin. unfold list_mem. apply existsb_exists.
  exists x. split; [exact Hin | apply String.eqb_refl].
Qed.

(** X20: [pick] and the select boxes of the page agree.  For each of the
    four labels [pick] shows first the same choice as the optional select
    box of that label; for any other label it shows "(none)".  It never
    returns "(none)" as a column, and the loop reads a field through what
    [pick] returns exactly when it would through the raw selection. *)
Theorem pick_agrees_with_select_boxes (cols : list string)
  (label sel : string) :
  (In label ["email"; "first"; "last"; "role"] ->
   pick_index cols label = optional_index cols label)
  /\ (~ In label ["email"; "first"; "last"; "role"] ->
      pick_index cols label = Some 0%nat)
  /\ pick_result sel <> Some "(none)"
  /\ col_selected (pick_result sel) = col_selected (Some sel).
Proof.
  split; [|split; [|split]].
  - intros Hin.
    assert (Hdef : pick_default cols label = dict_get (cols_lower cols) label).
    { unfold pick_default.
      destruct Hin as [<-|[<-|[<-|[<-|[]]]]]; cbn [fold_left];
        repeat match goal with
               | |- context [String.eqb ?a ?b] =>
                   let v := eval vm_compute in (String.eqb a b) in
                   change (String.eqb a b) with v
               end; cbv iota;
        now destruct (dict_get (cols_lower cols) _). }
    unfold pick_index, optional_index. rewrite Hdef.
    pose proof (cols_lower_get cols label) as Hget.
    destruct (dict_get (cols_lower cols) label) as [c|]; [|reflexivity].
    destruct Hget as (before & after & Hcols & _).
    rewrite list_mem_in; [reflexivity|]. rewrite Hcols. apply in_elt.
  - intros Hout.
    assert (Hdef : pick_default cols label = None).
    { unfold pick_default. cbn [fold_left].
      assert (forall k, In k ["email"; "first"; "last"; "role"] ->
                        String.eqb label k = false) as Hk.
      { intros k Hk. apply String.eqb_neq. intros ->. contradiction. }
      rewrite !Hk; cbn; tauto. }
    unfold pick_index. now rewrite Hdef.
  - unfold pick_result. destruct (String.eqb sel "(none)") eqn:E;
      [discriminate|].
    apply String.eqb_neq in E. congruence.
  - unfold pick_result. destruct (String.eqb sel "(none)") eqn:E.
    + apply String.eqb_eq in E. subst sel. reflexivity.
    + reflexivity.
Qed.

(** ** The script from the top *)

Lemma run_loop_posts_credentials (cfg : Config) (net : Network) (total : Z)
  (rows : list (Label * Row)) (st : Session) flow st' :
  run_loop cfg net total rows st = Some (flow, st') ->
  (forall rq, In rq (posts (log st)) ->
              url rq = (BASE ++ "/accounts/" ++ account_id cfg ++ "/users")%string
              /\ In ("X-Payhawk-ApiKey", api_key cfg) (headers rq)) ->
  forall rq, In rq (posts (log st')) ->
             url rq = (BASE ++ "/accounts/" ++ account_id cfg ++ "/users")%string
             /\ In ("X-Payhawk-ApiKey", api_key cfg) (headers rq).
Proof.
  intros Hrun Hst.
  refine (run_loop_invariant cfg net total
            (fun s => forall rq, In rq (posts (log s)) -> _)
            _ rows st flow st' Hst Hrun).
  intros label row s fl s' HP Hbody rq Hin.
  assert (H : exists evs n,
             log s' = log s ++ evs
             /\ posts evs = repeat (row_request cfg (normalize cfg row)) n).
  { destruct label as [i|s0]; cbn [loop_iteration] in Hbody.
    - destruct (loop_body_summary cfg net total i row s)
        as (fl1 & s1 & o1 & evs & Hbody1 & _ & Hlog & _ & _ & _ & Hcase).
      rewrite Hbody in Hbody1. injection Hbody1 as <- <-.
      destruct Hcase as [(_ & _ & _ & Hp & _)|[(_ & _ & _ & _ & Hp & _)
                                              |(_ & _ & n & _ & Hp & _)]].
      + exists evs, 0%nat. now split.
      + exists evs, 0%nat. now split.
      + exists evs, (S n). now split.
    - destruct (loop_body_text_summary cfg net row s)
        as (s1 & evs & Hbody1 & _ & Hlog & _ & Hcase).
      rewrite Hbody1 in Hbody. injection Hbody as <- <-.
      destruct Hcase as [(_ & ->)|[(_ & _ & ->)|(_ & _ & n & _ & Hp & _)]].
      + exists [], 0%nat. now split.
      + exists [], 0%nat. now split.
      + exists evs, (S n). now split. }
  destruct H as (evs & n & Hlog & Hp).
  rewrite Hlog, posts_app in Hin. apply in_app_or in Hin as [Hin|Hin];
    [now apply HP|].
  rewrite Hp in Hin. apply repeat_spec in Hin. subst rq.
  rewrite row_request_content.
  cbn [url headers]. split; [reflexivity | now left].
Qed.

(** X21: the script calls the API only when everything is in place.  It
    reaches the loop only with an API key and an account that are not
    empty (the ones [get_creds] found), a file that was uploaded and
    read (at the second try when the first met a decoding error), a
    frame that is not empty, the button pressed and an email column
    chosen; the loop then runs over the rows of that frame, and every
    request it sends goes to the users of that account with that key. *)
Theorem script_runs_only_when_ready (secrets : string -> SecretEntry)
  (env : Environ) (uploaded : option Upload) (w : Widgets) (net : Network)
  (cfg : Config) (ending : option (Flow * Session)) :
  script secrets env uploaded w net = Ran cfg ending ->
  api_key cfg = c_api_key (get_creds secrets env)
  /\ account_id cfg = c_account_id (get_creds secrets env)
  /\ api_key cfg <> "" /\ account_id cfg <> ""
  /\ email_col cfg = w_email w /\ email_col cfg <> ""
  /\ w_run w = true
  /\ (exists u df,
         uploaded = Some u
         /\ (plain_read u = ReadFrame df
             \/ (exists msg, plain_read u = ReadUnicodeError msg)
                /\ sig_read u = ReadFrame df)
         /\ columns df <> [] /\ rows df <> []
         /\ ending = run cfg net (rows df))
  /\ (exists flow st,
         ending = Some (flow, st)
         /\ forall rq, In rq (posts (log st)) ->
              url rq = (BASE ++ "/accounts/" ++ account_id cfg
                        ++ "/users")%string
              /\ In ("X-Payhawk-ApiKey", api_key cfg) (headers rq)).
Proof.
  unfold script.
  destruct (PyStr.truthy (c_api_key (get_creds secrets env))) eqn:Hk;
    [|discriminate].
  destruct (PyStr.truthy (c_account_id (get_creds secrets env))) eqn:Ha;
    [|discriminate].
  cbn [negb orb].
  destruct uploaded as [u|]; [|discriminate].
  destruct (read_upload u) as [msg|df] eqn:Hread; [discriminate|].
  destruct (df_empty df) eqn:Hempty; [discriminate|].
  destruct (w_run w) eqn:Hrun; [|discriminate].
  destruct (PyStr.truthy (w_email w)) eqn:He; [|discriminate].
  cbn [negb]. intros H. injection H as <- <-.
  cbn [config_of api_key account_id email_col].
  apply truthy_true_iff in Hk, Ha, He.
  repeat (split; [assumption || reflexivity|]).
  split.
  - exists u, df. split; [reflexivity|]. split.
    { unfold read_upload in Hread.
      destruct (plain_read u) as [df0|m|m]; [left; congruence| |discriminate].
      right. split; [now exists m|].
      destruct (sig_read u); congruence. }
    unfold df_empty in Hempty. apply orb_false_iff in Hempty as [Hc Hr].
    apply Nat.eqb_neq in Hc, Hr.
    repeat split; try (intros E; rewrite E in *; cbn in *; congruence).
  - unfold run.
    destruct (run_loop_ends (config_of (get_creds secrets env) w) net
                (Z.of_nat (length (rows df))) (rows df) start)
      as (flow & st & Hloop).
    exists flow, st. split; [exact Hloop|].
    apply (run_loop_posts_credentials _ _ _ _ _ _ _ Hloop).
    intros rq [].
Qed.

(** X21, at secrets that are set, a file that needs the second read, and
    the button pressed. *)
Lemma script_runs_only_when_ready_witness :
  exists ending,
    script Samples.full_secrets Samples.env_unset (Some Samples.upload)
      Samples.widgets Examples.net_ok
    = Ran (config_of (get_creds Samples.full_secrets Samples.env_unset)
             Samples.widgets) ending
    /\ api_key (config_of (get_creds Samples.full_secrets Samples.env_unset)
                  Samples.widgets) = "k1"
    /\ map o_status (outcomes ending)
       = ["INVITED"; "SKIPPED: missing email"; "INVITED"].
Proof.
  eexists. split; [reflexivity|].
  destruct (script_runs_only_when_ready Samples.full_secrets Samples.env_unset
              (Some Samples.upload) Samples.widgets Examples.net_ok
              _ _ eq_refl)
    as (Hkey & _).
  split; [rewrite Hkey; reflexivity | reflexivity].
Defined.

(** ** The body of a response *)

Lemma prefix_append (a b : string) :
  prefix a b = true <-> exists c, b = (a ++ c)%string.
Proof.
  revert b. induction a as [|x a IH]; intros b.
  - split; [intros _; now exists b | intros _; now destruct b].
  - destruct b as [|y b]; cbn.
    + split; [discriminate | intros (c & H); discriminate].
    + destruct (Ascii.ascii_dec x y) as [->|Hne].
      * rewrite IH. split; intros (c & H); exists c; congruence.
      * split; [discriminate | intros (c & H); congruence].
Qed.

(** [needle in hay] holds exactly when [hay] is some text, [needle], some
    text. *)
Lemma contains_iff (needle hay : string) :
  PyStr.contains needle hay = true
  <-> exists before after, hay = (before ++ needle ++ after)%string.
Proof.
  split.
  - induction hay as [|c t IH]; cbn [PyStr.contains].
    + destruct (prefix needle "") eqn:E; [|discriminate].
      intros _. apply prefix_append in E as (after & E).
      now exists "", after.
    + destruct (prefix needle (String c t)) eqn:E.
      * intros _. apply prefix_append in E as (after & E).
        now exists "", after.
      * intros H. destruct (IH H) as (before & after & ->).
        now exists (String c before), after.
  - intros (before & after & ->).
    induction before as [|c before IH].
    + cbn [String.append].
      assert (E : prefix needle (needle ++ after) = true)
        by (apply prefix_append; now exists after).
      destruct (needle ++ after)%string; cbn [PyStr.contains]; now rewrite E.
    + cbn [String.append PyStr.contains].
      destruct (prefix needle (String c (before ++ needle ++ after)));
        [reflexivity | exact IH].
Qed.

(** X22: the body of a response matters to the status only for the codes
    400 and 409, and there only through one question: a 400 or a 409 is
    "ALREADY_EXISTS" exactly when its body, put in lower case, contains
    "already" somewhere; for every other code the status is the same
    whatever the body says. *)
Theorem body_matters_only_for_conflicts (code : Z) (body body' : string) :
  (code = 400 \/ code = 409 ->
   (classify {| status_code := code; text := body |}
    = Tagged "ALREADY_EXISTS"
    <-> exists before after,
          PyStr.lower body = (before ++ "already" ++ after)%string))
  /\ (code <> 400 -> code <> 409 ->
      classify {| status_code := code; text := body |}
      = classify {| status_code := code; text := body' |}).
Proof.
  split.
  - intros Hcode. rewrite <- contains_iff. unfold classify.
    cbn [status_code text].
    destruct (PyStr.contains "already" (PyStr.lower body)).
    + destruct Hcode as [->| ->]; split; reflexivity.
    + destruct Hcode as [->| ->]; split; discriminate.
  - intros H400 H409. unfold classify. cbn [status_code text].
    apply Z.eqb_neq in H400, H409. now rewrite H400, H409.
Qed.

(** X22, at a conflict whose body says "User ALREADY exists". *)
Lemma body_matters_only_for_conflicts_witness :
  classify {| status_code := 409; text := "User ALREADY exists" |}
  = Tagged "ALREADY_EXISTS".
Proof.
  apply (proj1 (body_matters_only_for_conflicts 409 "User ALREADY exists" "")).
  - now right.
  - exists "user ", " exists". reflexivity.
Defined.
